(** * Population-ecology approach: equilibrium solving and trajectory simulation

    A shallow embedding of [package/simulators.py], [src/simulators.py],
    [package/model.py] and [package/solvers.py], and the properties of the
    specification settled against it.

    Numbers.  The source computes with numpy's binary64 floats.  The embedding
    takes them as exact rationals ([Qc], the canonical rationals, so that equal
    numbers are equal terms); rounding, infinities and NaN are outside the
    model.  An array of shape (8,) is a [vec Qc 8]; a trajectory, the source's
    array of shape (8, K), is held column by column as a list of K states.

    Where a property names the digits of a result, rounding matters: the
    setter of the initial condition is therefore given a second time on
    binary64 floats themselves (module [Binary64]), with the kernel's IEEE 754
    arithmetic. *)

From Stdlib Require Import QArith Qcanon Qcabs Reals Qreals Lra.
From Stdlib Require PrimFloat.
From stdpp Require Import base option list vector gmap strings numbers.

(* Decimal literals denote the nearest binary64 float, as in Python. *)
Set Warnings "-inexact-float".

(** ** Numbers and states *)

(** A float literal of the source, read as the rational it denotes. *)
Definition flt (q : Q) : Qc := Q2Qc q.

Abbreviation state := (vec Qc 8).
Abbreviation shares := (vec Qc 4).

(** [params]: the source's [dict] from parameter names to floats. *)
Abbreviation params_t := (gmap string Qc).

(** ** Exceptions *)

(** The exceptions the modelled code can raise, and the names of the
    specification's error taxonomy ([DomainError], [PreconditionError],
    [NonConvergence], [InvalidArgument]), which no line of the source raises. *)
Inductive exn : Type :=
  | KeyError (key : string)
  | ValueError
  | IndexError
  | TypeError
  | AttributeError (name : string)
  | AxisError
  | NotImplementedError
  | DomainError
  | PreconditionError
  | NonConvergence
  | InvalidArgument.

(** The outcome of a call: a returned value or a raised exception. *)
Inductive result (A : Type) : Type :=
  | Ok (a : A)
  | Raise (e : exn).
Arguments Ok {A} a.
Arguments Raise {A} e.

#[global] Instance result_ret : MRet result := λ A, Ok.
#[global] Instance result_bind : MBind result :=
  λ A B f m, match m with Ok a => f a | Raise e => Raise e end.

Definition returns {A} (r : result A) : Prop := ∃ a, r = Ok a.

(** [d[key]] on a dict. *)
Definition getitem (d : params_t) (key : string) : result Qc :=
  match d !! key with
  | Some v => Ok v
  | None => Raise (KeyError key)
  end.

(** A [for] loop over the indices [ts], threading the loop's variables. *)
Fixpoint for_loop {S : Type} (body : nat → S → result S) (ts : list nat) (s : S)
  : result S :=
  match ts with
  | [] => Ok s
  | t :: ts' => s' ← body t s; for_loop body ts' s'
  end.

(** ** numpy on 1-d arrays of eight floats and on trajectories *)

Module np.

Definition ones8 : state := vreplicate 8 1%Qc.

(** [a - b], elementwise. *)
Definition subtract (a b : state) : state := vzip_with Qcminus a b.

(** [np.abs(a)], elementwise. *)
Definition abs (a : state) : state := vmap Qcabs a.

(** [np.greater(a, x)]: the array against a scalar, elementwise. *)
Definition greater (a : state) (x : Qc) : vec bool 8 :=
  vmap (λ d, bool_decide (x < d)%Qc) a.

Definition any (b : vec bool 8) : bool := existsb (λ x, x) (vec_to_list b).

(** [np.hstack((a, b))] on two arrays of shape (4,). *)
Definition hstack (a b : shares) : state := a +++ b.

(** [X[:4]] and [X[4:]]. *)
Definition first_half (X : state) : shares := vtake 4%fin X.
Definition second_half (X : state) : shares := vdrop 4%fin X.

(** [np.sum(a)] on a 1-d array. *)
Definition sum {n} (a : vec Qc n) : Qc := foldl Qcplus 0%Qc (vec_to_list a).

(** [np.empty((8, T))]: a fresh array of T columns whose contents are
    whatever the memory held ([junk]); a negative dimension is refused. *)
Definition empty (junk : nat → state) (T : Z) : result (list state) :=
  if decide (T < 0)%Z then Raise ValueError
  else Ok (junk <$> seq 0 (Z.to_nat T)).

(** [traj[:, t]] for an index t >= 0. *)
Definition getcol (traj : list state) (t : nat) : result state :=
  match traj !! t with
  | Some x => Ok x
  | None => Raise IndexError
  end.

(** [traj[:, t] = x] for an index t >= 0: in place, refused out of range. *)
Definition setcol (traj : list state) (t : nat) (x : state)
  : result (list state) :=
  if decide (t < length traj)%nat then Ok (<[t := x]> traj)
  else Raise IndexError.

(** [traj[:, -1]]: the last column. *)
Definition lastcol (traj : list state) : result state :=
  match list.last traj with
  | Some x => Ok x
  | None => Raise IndexError
  end.

(** [np.hstack((traj, x[:, np.newaxis]))]: one more column. *)
Definition append_col (traj : list state) (x : state) : list state :=
  traj ++ [x].

(** *** Arrays whose shape the code does not fix

    What the compiled symbolic system returns is an array of rank 0, 1 or 2;
    a rank-2 array is its list of rows, all of one length. *)
Inductive ndarray : Type :=
  | Scalar (x : Qc)
  | Arr1 (v : list Qc)
  | Arr2 (rows : list (list Qc)).

Definition ndim (a : ndarray) : nat :=
  match a with Scalar _ => 0 | Arr1 _ => 1 | Arr2 _ => 2 end.

(** The array seen with rank 2, as broadcasting sees it: missing leading
    dimensions are 1. *)
Definition rows2 (a : ndarray) : list (list Qc) :=
  match a with
  | Scalar x => [[x]]
  | Arr1 v => [v]
  | Arr2 rows => rows
  end.

Definition ncols (rows : list (list Qc)) : nat :=
  match rows with [] => 0 | v :: _ => length v end.

(** The broadcast of two dimensions: equal, or one of them 1. *)
Definition bdim (m1 m2 : nat) : result nat :=
  if decide (m1 = m2) then Ok m1
  else if decide (m1 = 1) then Ok m2
  else if decide (m2 = 1) then Ok m1
  else Raise ValueError.

(** A dimension of length 1 repeated to length [m]. *)
Definition stretch {A : Type} (m : nat) (l : list A) : list A :=
  match l with
  | [x] => replicate m x
  | _ => l
  end.

(** The array of rank [k] held by the rows [C]. *)
Definition of_rows2 (k : nat) (C : list (list Qc)) : ndarray :=
  match k, C with
  | 0, [[x]] => Scalar x
  | 1, [v] => Arr1 v
  | _, _ => Arr2 C
  end.

(** A binary operation applied elementwise under broadcasting. *)
Definition broadcast (f : Qc → Qc → Qc) (a b : ndarray) : result ndarray :=
  let A := rows2 a in
  let B := rows2 b in
  m ← bdim (length A) (length B);
  n ← bdim (ncols A) (ncols B);
  let A' := stretch m (stretch n <$> A) in
  let B' := stretch m (stretch n <$> B) in
  Ok (of_rows2 (ndim a `max` ndim b) (zip_with (zip_with f) A' B')).

(** [a * b]. *)
Definition multiply : ndarray → ndarray → result ndarray := broadcast Qcmult.

(** [a ** 2]. *)
Definition square (a : ndarray) : ndarray :=
  match a with
  | Scalar x => Scalar (x * x)
  | Arr1 v => Arr1 ((λ x : Qc, x * x)%Qc <$> v)
  | Arr2 rows => Arr2 ((λ row : list Qc, (λ x : Qc, x * x)%Qc <$> row) <$> rows)
  end.

(** [np.sum(a, axis=0)]: a rank-2 array loses its rows, added up one after
    the other; a rank-1 array gives the sum of its entries, and numpy lets
    [axis=0] pass on a rank-0 array, which gives its number. *)
Definition sum_axis0 (a : ndarray) : result ndarray :=
  match a with
  | Scalar x => Ok (Scalar x)
  | Arr1 v => Ok (Scalar (foldl Qcplus 0%Qc v))
  | Arr2 [] => Ok (Arr1 [])
  | Arr2 (r :: rs) => Ok (Arr1 (foldl (zip_with Qcplus) r rs))
  end.

(** [a.flatten()], [a.ravel()]: the entries in row-major order. *)
Definition flatten (a : ndarray) : list Qc := concat (rows2 a).

(** [np.sum(a)]: every entry. *)
Definition sum_all (a : ndarray) : Qc := foldl Qcplus 0%Qc (flatten a).

(** The value assigned to a column [traj[:, t]]: it must broadcast to shape
    (8,), so it has eight entries or one. *)
Definition to_col (v : list Qc) : result state :=
  match v with
  | [x] => Ok (vreplicate 8 x)
  | [x0; x1; x2; x3; x4; x5; x6; x7] => Ok [# x0; x1; x2; x3; x4; x5; x6; x7]
  | _ => Raise ValueError
  end.

(** *** Complex numbers: what [linalg.eig] returns *)

Record complex : Type := Complex { re : Qc; im : Qc }.

(** [np.abs(z)]: the modulus, a real number. *)
Definition cabs (z : complex) : R :=
  sqrt (Q2R (re z) * Q2R (re z) + Q2R (im z) * Q2R (im z)).

(** [np.less(a, x)] on real numbers. *)
Definition less (a : list R) (x : R) : list bool :=
  (λ r, if Rlt_dec r x then true else false) <$> a.

Definition all (b : list bool) : bool := forallb (λ x, x) b.

End np.

(** ** [simulators.py]: class [Simulator] *)

Module Simulator.

(** [range(1, T)]. *)
Definition range1 (T : Z) : list nat := seq 1 (Z.to_nat T - 1).

Section WithFamily.

(** [self.family]: its parameters and its compiled equation of motion
    [family._numeric_system(X[:4], X[4:], **params)], of which [F] takes
    the eight values ([ravel]). *)
Variable family_params : params_t.
Variable family_numeric_system : shares → shares → params_t → state.

(** [initial_condition.setter]: the value stored in
    [self._initial_condition] for the initial share [mGA]. *)
Definition set_initial_condition (mGA : Qc) : result state :=
  let mga := (1 - mGA)%Qc in
  let initial_male_shares : shares := [# mGA; 0; 0; mga]%Qc in
  c ← getitem family_params "c";
  PiAA ← getitem family_params "PiAA";
  let fGA0 := (c * PiAA * mGA)%Qc in
  c' ← getitem family_params "c";
  Piaa ← getitem family_params "Piaa";
  let fga0 := (c' * Piaa * mga)%Qc in
  let initial_number_females : shares := [# fGA0; 0; 0; fga0]%Qc in
  Ok (np.hstack initial_male_shares initial_number_females).

(** [F]: the equation of motion. *)
Definition F (X : state) : state :=
  family_numeric_system (np.first_half X) (np.second_half X) family_params.

(** [_simulate_fixed_trajectory]. *)
Definition _simulate_fixed_trajectory (junk : nat → state)
    (initial_condition : state) (T : Z) : result (list state) :=
  traj ← np.empty junk T;
  traj ← np.setcol traj 0 initial_condition;
  for_loop (λ t traj,
              current_shares ← np.getcol traj (t - 1);
              let new_shares := F current_shares in
              np.setcol traj t new_shares)
           (range1 T) traj.

(** The [while] loop of [_simulate_variable_trajectory], entered with the
    loop's variables [traj] and [delta].  [fuel] bounds the number of
    iterations the model follows: [None] says that the loop was still
    running when the fuel ran out.  The source has no such bound. *)
Fixpoint while_loop (fuel : nat) (rtol : Qc) (traj : list state)
    (delta : state) : option (result (list state)) :=
  if np.any (np.greater delta rtol) then
    match fuel with
    | O => None
    | S fuel' =>
        match np.lastcol traj with
        | Ok current_shares =>
            let new_shares := F current_shares in
            let delta := np.abs (np.subtract new_shares current_shares) in
            while_loop fuel' rtol (np.append_col traj new_shares) delta
        | Raise e => Some (Raise e)
        end
    end
  else Some (Ok traj).

(** [_simulate_variable_trajectory]. *)
Definition _simulate_variable_trajectory (fuel : nat)
    (initial_condition : state) (rtol : Qc)
  : option (result (list state)) :=
  let traj := [initial_condition] in
  let delta := np.ones8 in
  while_loop fuel rtol traj delta.

(** The getter of the property [initial_condition]:
    [self._initial_condition], an attribute only once the setter has run. *)
Definition initial_condition (_initial_condition : option state)
  : result state :=
  match _initial_condition with
  | Some X => Ok X
  | None => Raise (AttributeError "_initial_condition")
  end.

(** [simulate(rtol=None, T=None)]. *)
Definition simulate (fuel : nat) (junk : nat → state)
    (_initial_condition : option state) (rtol : option Qc) (T : option Z)
  : option (result (list state)) :=
  match T, rtol with
  | Some T, _ =>
      Some (X ← initial_condition _initial_condition;
            _simulate_fixed_trajectory junk X T)
  | None, Some rtol =>
      match initial_condition _initial_condition with
      | Ok X => _simulate_variable_trajectory fuel X rtol
      | Raise e => Some (Raise e)
      end
  | None, None => Some (Raise ValueError)
  end.

End WithFamily.

End Simulator.

(** ** [simulators.py] on binary64: the setter of the initial condition

    The same lines of the source, 44 to 59, with the numbers as numpy has
    them: binary64 floats, every operation rounded to nearest, in the order
    in which Python evaluates them ([c * PiAA * mGA] is [(c * PiAA) * mGA]). *)

Module Binary64.

Import PrimFloat.

Abbreviation state := (vec float 8).
Abbreviation shares := (vec float 4).
Abbreviation params_t := (gmap string float).

(** [d[key]] on a dict of floats. *)
Definition getitem (d : params_t) (key : string) : result float :=
  match d !! key with
  | Some v => Ok v
  | None => Raise (KeyError key)
  end.

(** [np.hstack((a, b))] on two arrays of shape (4,). *)
Definition hstack (a b : shares) : state := a +++ b.

(** [initial_condition.setter]. *)
Definition set_initial_condition (family_params : params_t) (mGA : float)
  : result state :=
  let mga := (1 - mGA)%float in
  let initial_male_shares : shares := [# mGA; 0.0%float; 0.0%float; mga] in
  c ← getitem family_params "c";
  PiAA ← getitem family_params "PiAA";
  let fGA0 := (c * PiAA * mGA)%float in
  c' ← getitem family_params "c";
  Piaa ← getitem family_params "Piaa";
  let fga0 := (c' * Piaa * mga)%float in
  let initial_number_females : shares := [# fGA0; 0.0%float; 0.0%float; fga0] in
  Ok (hstack initial_male_shares initial_number_females).

(** The parameters of the isolated sub-populations scenario of the
    specification, and the state the specification gives for [m0 = 0.3]. *)
Definition isolated_params : params_t :=
  {[ "c" := 1.0%float; "PiAA" := 5.0%float; "Piaa" := 3.0%float ]}.

Definition stated_initial_condition : state :=
  [# 0.3; 0; 0; 0.7; 1.5; 0; 0; 2.1]%float.

End Binary64.

(** ** scipy: its result record *)

Module scipy.

(** [OptimizeResult]: the solved state, the solver's success flag, the value
    of the function at the solution and the solver's diagnostics. *)
Record OptimizeResult : Type := {
  x : state;
  success : bool;
  fun_ : np.ndarray;
  message : string;
  nit : nat
}.

(** [scipy.optimize.minimize(fun, x0=, method=, jac=, bounds=, constraints=,
    **kwargs)]. *)
Definition minimize_t : Type :=
  (state → result Qc) → state → string → (state → result np.ndarray) →
  list (Qc * Qc) → list (string * (state → Qc)) → params_t →
  result OptimizeResult.

(** [scipy.optimize.root(fun, x0=, method=, jac=, **kwargs)]; [jac] is a
    callable or [False]. *)
Definition root_t : Type :=
  (state → result (list Qc)) → state → string →
  option (state → result np.ndarray) → params_t → result OptimizeResult.

(** [scipy.linalg.eig(a)]: the eigenvalues it computes. *)
Definition eig_t : Type := np.ndarray → result (list np.complex).

End scipy.

(** ** [model.py]: class [Model] *)

Module Model.

(** The module [wrapped_symbolics], the compiled symbolic system, is not among
    the sources: its four functions of the eight shares and the parameters are
    taken as they are, pure and total, with whatever shape they return. *)
Record symbolic_system : Type := {
  residual : state → params_t → np.ndarray;
  residual_jacobian : state → params_t → np.ndarray;
  model_system : state → params_t → np.ndarray;
  model_jacobian : state → params_t → np.ndarray
}.

Section WithSymbolics.

(** [self.params], [self.solver_kwargs]. *)
Variable params : params_t.
Variable solver_kwargs : params_t.

Variable wrapped_symbolics : symbolic_system.

(** [scipy.optimize.minimize] and [scipy.linalg.eig], external libraries. *)
Variable optimize_minimize : scipy.minimize_t.
Variable linalg_eig : scipy.eig_t.

(** [_get__bound_constraints]: population shares must be in [0,1]. *)
Definition _bound_constraints : list (Qc * Qc) :=
  let eps := flt (1 # 1000000000000000) in
  (λ _, (eps, 1 - eps)%Qc) <$> seq 0 8.

(** [_get__male_alleles_constraint] and [_get__female_alleles_constraint]. *)
Definition _male_alleles_constraint : string * (state → Qc) :=
  ("eq", λ X, (1 - np.sum (np.first_half X))%Qc).

Definition _female_alleles_constraint : string * (state → Qc) :=
  ("eq", λ X, (1 - np.sum (np.second_half X))%Qc).

(** [_get__equality_constraints]. *)
Definition _equality_constraints : list (string * (state → Qc)) :=
  [_male_alleles_constraint; _female_alleles_constraint].

(** [_residual]: the model steady state is a root of this system. *)
Definition _residual (X : state) : result np.ndarray :=
  let resid := residual wrapped_symbolics X params in
  Ok resid.

(** [_residual_jacobian]. *)
Definition _residual_jacobian (X : state) : result np.ndarray :=
  let jac := residual_jacobian wrapped_symbolics X params in
  Ok jac.

(** [_jacobian]: Jacobian of the objective function,
    [np.sum(self._residual(X) * self._residual_jacobian(X), axis=0)]. *)
Definition _jacobian (X : state) : result np.ndarray :=
  r ← _residual X;
  J ← _residual_jacobian X;
  prod ← np.multiply r J;
  np.sum_axis0 prod.

(** [_objective]: [0.5 * np.sum(self._residual(X)**2)]. *)
Definition _objective (X : state) : result Qc :=
  r ← _residual X;
  Ok (flt 0.5 * np.sum_all (np.square r))%Qc.

(** [F]: the equation of motion, flattened. *)
Definition F (X : state) : list Qc :=
  let out := model_system wrapped_symbolics X params in
  np.flatten out.

(** [F_jacobian]: Jacobian for the equation of motion. *)
Definition F_jacobian (X : state) : np.ndarray :=
  model_jacobian wrapped_symbolics X params.

(** [_get_steady_state]: the cached property [steady_state], computed from
    the initial guess. *)
Definition _get_steady_state (_initial_guess : state)
  : result scipy.OptimizeResult :=
  optimize_minimize _objective _initial_guess "SLSQP" _jacobian
    _bound_constraints _equality_constraints solver_kwargs.

(** [_get_eigenvalues]: the eigenvalues of the Jacobian evaluated at
    equilibrium. *)
Definition _get_eigenvalues (_initial_guess : state)
  : result (list np.complex) :=
  steady_state ← _get_steady_state _initial_guess;
  let evaluated_jac := F_jacobian (scipy.x steady_state) in
  linalg_eig evaluated_jac.

(** [_get_isstable]: [np.all(np.less(np.abs(self.eigenvalues), 1.0))]. *)
Definition _get_isstable (_initial_guess : state) : result bool :=
  eigenvalues ← _get_eigenvalues _initial_guess;
  Ok (np.all (np.less (np.cabs <$> eigenvalues) 1%R)).

(** [simulate(initial_condition, T=10)]. *)
Definition simulate (junk : nat → state) (initial_condition : state) (T : Z)
  : result (list state) :=
  traj ← np.empty junk T;
  traj ← np.setcol traj 0 initial_condition;
  for_loop (λ t traj,
              prev ← np.getcol traj (t - 1);
              new ← np.to_col (F prev);
              np.setcol traj t new)
           (Simulator.range1 T) traj.

End WithSymbolics.

End Model.

(** ** [solvers.py]: classes [Solver], [LeastSquaresSolver], [RootFinder] *)

Module Solver.

(** [families.Family] is not among the sources; this module reads its
    parameters only. *)
Record Family : Type := { params : params_t }.

(** A compiled numeric function of the two blocks of shares and the
    parameters, as [sympy.lambdify] makes them. *)
Definition numeric : Type := shares → shares → params_t → np.ndarray.

(** The values an attribute of a solver can hold. *)
Inductive pyvalue : Type :=
  | PyNone
  | PyFamily (family : Family)
  | PyArray (value : state)
  | PyNumeric (f : numeric)
  | PyClassAttr (name : string).

(** An instance is its [__dict__]. *)
Abbreviation instance := (gmap string pyvalue).

(** What a class body binds a name to. *)
Inductive attr_kind : Type := ClassVar | Method | Property.

(** The names bound in the body of [class Solver], in the order of the
    source, and in the body of [class RootFinder]; [LeastSquaresSolver] binds
    none. *)
Definition Solver_class : list (string * attr_kind) :=
  [ ("_modules", ClassVar); ("__init__", Method);
    ("_numeric_jacobian", Property); ("_numeric_residual", Property);
    ("_symbolic_residual", Property); ("_symbolic_jacobian", Property);
    ("initial_guess", Property); ("jacobian", Method); ("residual", Method);
    ("solve", Method) ].

Definition RootFinder_class : list (string * attr_kind) :=
  [ ("solve", Method) ].

Definition LeastSquaresSolver_class : list (string * attr_kind) := [].

(** The first binding of [name] along a method resolution order. *)
Definition class_lookup (mro : list (list (string * attr_kind))) (name : string)
  : option attr_kind :=
  match list_find (λ b, b.1 = name) (concat mro) with
  | Some (_, (_, kind)) => Some kind
  | None => None
  end.

(** [self.name]: a property of the class first, then the instance's
    [__dict__], then the other class attributes; [AttributeError] when the
    name is bound nowhere (no class here defines [__getattr__]). *)
Definition getattr (mro : list (list (string * attr_kind))) (self : instance)
    (name : string) : result pyvalue :=
  match class_lookup mro name with
  | Some Property => Ok (PyClassAttr name)
  | bound =>
      match self !! name, bound with
      | Some v, _ => Ok v
      | None, Some _ => Ok (PyClassAttr name)
      | None, None => Raise (AttributeError name)
      end
  end.

(** [Solver.__init__(self, family)]: the one attribute it sets. *)
Definition __init__ (family : Family) : instance :=
  {[ "family" := PyFamily family ]}.

(** [initial_guess.setter]. *)
Definition set_initial_guess (self : instance) (value : state) : instance :=
  <[ "_initial_guess" := PyArray value ]> self.

Section WithClass.

(** The method resolution order of the instance's class. *)
Variable mro : list (list (string * attr_kind)).

(** [sympy.lambdify] applied to the symbolic Jacobian and to the symbolic
    residual of the family, and [scipy.optimize.root]: external libraries. *)
Variable lambdify_jacobian : Family → numeric.
Variable lambdify_residual : Family → numeric.
Variable optimize_root : scipy.root_t.

(** [self.family.params]. *)
Definition family_params (self : instance) : result params_t :=
  v ← getattr mro self "family";
  match v with
  | PyFamily family => Ok (params family)
  | _ => Raise (AttributeError "params")
  end.

(** The getter of the property [initial_guess]: [self._initial_guess]. *)
Definition initial_guess (self : instance) : result state :=
  v ← getattr mro self "_initial_guess";
  match v with
  | PyArray value => Ok value
  | _ => Raise TypeError
  end.

(** The getter of the property [_numeric_jacobian]; inside [class Solver]
    the name [self.__numeric_jacobian] is [self._Solver__numeric_jacobian]. *)
Definition _numeric_jacobian (self : instance) : result numeric :=
  v ← getattr mro self "_Solver__numeric_jacobian";
  match v with
  | PyNone =>
      fam ← getattr mro self "family";
      match fam with
      | PyFamily family => Ok (lambdify_jacobian family)
      | _ => Raise (AttributeError "_symbolic_vars")
      end
  | PyNumeric f => Ok f
  | _ => Raise TypeError
  end.

(** The getter of the property [_numeric_residual], likewise over
    [self._Solver__numeric_residual]. *)
Definition _numeric_residual (self : instance) : result numeric :=
  v ← getattr mro self "_Solver__numeric_residual";
  match v with
  | PyNone =>
      fam ← getattr mro self "family";
      match fam with
      | PyFamily family => Ok (lambdify_residual family)
      | _ => Raise (AttributeError "_symbolic_vars")
      end
  | PyNumeric f => Ok f
  | _ => Raise TypeError
  end.

(** [jacobian(self, X)]:
    [self._numeric_jacobian(X[:4], X[4:], **self.family.params)]. *)
Definition jacobian (self : instance) (X : state) : result np.ndarray :=
  f ← _numeric_jacobian self;
  kw ← family_params self;
  Ok (f (np.first_half X) (np.second_half X) kw).

(** [residual(self, X)]:
    [self._numeric_system(X[:4], X[4:], **self.family.params).ravel()]. *)
Definition residual (self : instance) (X : state) : result (list Qc) :=
  v ← getattr mro self "_numeric_system";
  kw ← family_params self;
  match v with
  | PyNumeric f => Ok (np.flatten (f (np.first_half X) (np.second_half X) kw))
  | _ => Raise TypeError
  end.

(** [Solver.solve], inherited by [LeastSquaresSolver]. *)
Definition Solver_solve (self : instance) : result scipy.OptimizeResult :=
  Raise NotImplementedError.

(** [RootFinder.solve(self, method, with_jacobian=False, **kwargs)]. *)
Definition solve (self : instance) (method : string) (with_jacobian : bool)
    (kwargs : params_t) : result scipy.OptimizeResult :=
  let jac := if with_jacobian then Some (jacobian self) else None in
  x0 ← initial_guess self;
  optimize_root (residual self) x0 method jac kwargs.

End WithClass.

(** The method resolution order of [RootFinder]. *)
Definition RootFinder_mro : list (list (string * attr_kind)) :=
  [RootFinder_class; Solver_class].

End Solver.

(** ** [package/simulators.py]: what [plot_isolated_subpopulations_simulation]
       draws *)

Module Plot.

(** An axis is the list of the lines drawn on it, each the series of its
    points over time. *)
Abbreviation axis := (list (list Qc)).

(** [tmp_traj[i]]: row [i] of the trajectory array, a series over time. *)
Definition row (i : fin 8) (traj : list state) : list Qc :=
  (λ X, X !!! i) <$> traj.

(** [tmp_params]: the dict the function builds from its keyword arguments. *)
Definition tmp_params (d_A d_a e_G e_g c PiaA PiAA Piaa PiAa : Qc) : params_t :=
  <[ "c" := c ]> (<[ "e_G" := e_G ]> (<[ "e_g" := e_g ]> (<[ "d_A" := d_A ]>
  (<[ "d_a" := d_a ]> (<[ "PiaA" := PiaA ]> (<[ "PiAA" := PiAA ]>
  (<[ "Piaa" := Piaa ]> (<[ "PiAa" := PiAa ]> ∅)))))))).

(** The defaults of the keyword arguments, in the order of the signature:
    [d_A], [d_a], [e_G], [e_g], [c], [PiaA], [PiAA], [Piaa], [PiAa]. *)
Definition default_params : params_t :=
  tmp_params (flt 0.5) (flt 0.5) (flt 0.5) (flt 0.5) (flt 1.0) (flt 7.0)
    (flt 5.0) (flt 3.0) (flt 2.0).

(** [plot_isolated_subpopulations_simulation(simulator, mGA0, T, rtol, ...)]:
    the parameters replace those of the family, the initial condition is set
    from [mGA0], the model is simulated and the eight rows of the trajectory
    are drawn, four on each axis.  The result is the pair of axes. *)
Definition plot_isolated_subpopulations_simulation
    (family_numeric_system : shares → shares → params_t → state)
    (fuel : nat) (junk : nat → state)
    (mGA0 : Qc) (T : option Z) (rtol : option Qc) (tmp_params : params_t)
  : option (result (axis * axis)) :=
  match Simulator.set_initial_condition tmp_params mGA0 with
  | Raise e => Some (Raise e)
  | Ok initial_condition =>
      match Simulator.simulate tmp_params family_numeric_system fuel junk
              (Some initial_condition) rtol T with
      | None => None
      | Some (Raise e) => Some (Raise e)
      | Some (Ok tmp_traj) =>
          Some (Ok ([row 0%fin tmp_traj; row 1%fin tmp_traj;
                     row 2%fin tmp_traj; row 3%fin tmp_traj],
                    [row 4%fin tmp_traj; row 5%fin tmp_traj;
                     row 6%fin tmp_traj; row 7%fin tmp_traj]))
      end
  end.

End Plot.

(** ** [src/simulators.py]: the data frame and what is drawn from it *)

Module Frame.

(** The frame that [_trajectory_to_dataframe] builds: the index [Time] and,
    under the two headers, the rows of [trajectory.T] split into the four
    male and the four female genotype columns. *)
Record DataFrame : Type := {
  Time : list nat;
  Male_Adult_Genotypes : list shares;
  Female_Children_Genotypes : list shares
}.

(** [_trajectory_to_dataframe]. *)
Definition _trajectory_to_dataframe (trajectory : list state) : DataFrame := {|
  Time := seq 0 (length trajectory);
  Male_Adult_Genotypes := np.first_half <$> trajectory;
  Female_Children_Genotypes := np.second_half <$> trajectory
|}.

(** [simulate(rtol=None, T=None)] of this file: the trajectory as a frame. *)
Definition simulate
    (family_params : params_t)
    (family_numeric_system : shares → shares → params_t → state)
    (fuel : nat) (junk : nat → state) (_initial_condition : option state)
    (rtol : option Qc) (T : option Z) : option (result DataFrame) :=
  match Simulator.simulate family_params family_numeric_system fuel junk
          _initial_condition rtol T with
  | None => None
  | Some (Raise e) => Some (Raise e)
  | Some (Ok traj) => Some (Ok (_trajectory_to_dataframe traj))
  end.

(** Column [i] of a frame of four genotype columns, a series over time. *)
Definition genotype (i : fin 4) (dataframe : list shares) : list Qc :=
  (λ r, r !!! i) <$> dataframe.

(** [_plot_genotypes]: one line for each genotype. *)
Definition _plot_genotypes (axis : Plot.axis) (dataframe : list shares)
  : Plot.axis :=
  axis ++ [genotype 0%fin dataframe; genotype 1%fin dataframe;
           genotype 2%fin dataframe; genotype 3%fin dataframe].

(** [_plot_alpha_alleles]: [dataframe[[0, 2]].sum(axis=1)] and
    [dataframe[[1, 3]].sum(axis=1)], one line each. *)
Definition _plot_alpha_alleles (axis : Plot.axis) (dataframe : list shares)
  : Plot.axis :=
  let altruistic_agents := (λ r, r !!! 0%fin + r !!! 2%fin)%Qc <$> dataframe in
  let selfish_agents := (λ r, r !!! 1%fin + r !!! 3%fin)%Qc <$> dataframe in
  axis ++ [altruistic_agents; selfish_agents].

(** [_plot_gamma_alleles]: [dataframe[[0, 1]].sum(axis=1)] and
    [dataframe[[2, 3]].sum(axis=1)], one line each. *)
Definition _plot_gamma_alleles (axis : Plot.axis) (dataframe : list shares)
  : Plot.axis :=
  let Gatekeepers := (λ r, r !!! 0%fin + r !!! 1%fin)%Qc <$> dataframe in
  let gatekeepers := (λ r, r !!! 2%fin + r !!! 3%fin)%Qc <$> dataframe in
  axis ++ [Gatekeepers; gatekeepers].

(** [_plot_trajectories(ax, dataframe, kind)]. *)
Definition _plot_trajectories (ax : Plot.axis) (dataframe : list shares)
    (kind : string) : result Plot.axis :=
  if decide (kind = "genotypes") then Ok (_plot_genotypes ax dataframe)
  else if decide (kind = "alpha_allele") then
    Ok (_plot_alpha_alleles ax dataframe)
  else if decide (kind = "gamma_allele") then
    Ok (_plot_gamma_alleles ax dataframe)
  else Raise ValueError.

(** The labels of the legend, chosen from the kind of plot. *)
Definition labels (kind : string) : list string :=
  if decide (kind = "genotypes") then ["$GA$"; "$Ga$"; "$gA$"; "$ga$"]
  else if decide (kind = "alpha_allele") then ["$A$"; "$a$"]
  else ["$G$"; "$g$"].

(** What the figure holds: the lines and the labels of each axis. *)
Record figure : Type := {
  male_lines : Plot.axis;
  male_labels : list string;
  female_lines : Plot.axis;
  female_labels : list string
}.

(** [Axes.legend(handles, labels=...)] of matplotlib, an external library:
    called on an axis with the handles and the labels it is given, it returns
    or raises as matplotlib decides. *)
Definition legend_t : Type := Plot.axis → Plot.axis → list string → result ().

(** [plot_isolated_subpopulations_simulation(simulator, mGA0, T, rtol, males,
    females, **params)].  What [_plot_trajectories] returns, and the source
    calls [male_lines], is the axis it drew on: the handles given to
    [axes[0].legend] are that axis itself. *)
Definition plot_isolated_subpopulations_simulation
    (legend : legend_t)
    (family_numeric_system : shares → shares → params_t → state)
    (fuel : nat) (junk : nat → state)
    (mGA0 : Qc) (T : option Z) (rtol : option Qc) (males females : string)
    (params : params_t) : option (result figure) :=
  match Simulator.set_initial_condition params mGA0 with
  | Raise e => Some (Raise e)
  | Ok initial_condition =>
      match simulate params family_numeric_system fuel junk
              (Some initial_condition) rtol T with
      | None => None
      | Some (Raise e) => Some (Raise e)
      | Some (Ok df) =>
          Some (male_lines ←
                  _plot_trajectories [] (Male_Adult_Genotypes df) males;
                female_lines ←
                  _plot_trajectories [] (Female_Children_Genotypes df) females;
                let male_labels := labels males in
                _ ← legend male_lines male_lines male_labels;
                let female_labels := labels females in
                _ ← legend female_lines female_lines female_labels;
                Ok {| male_lines := male_lines;
                      male_labels := male_labels;
                      female_lines := female_lines;
                      female_labels := female_labels |})
      end
  end.

End Frame.

(** * The vocabulary of the properties *)

(** The first [n] iterates of a map, from [x0]. *)
Definition iterates (f : state → state) (x0 : state) (n : nat) : list state :=
  (λ t, Nat.iter t f x0) <$> seq 0 n.

(** [traj] is a trajectory of [T] states from [x0] under [f]: state 0 is
    [x0] and state [t] is [f] of state [t - 1] for [t = 1 .. T - 1]. *)
Definition is_trajectory (f : state → state) (x0 : state) (T : Z)
    (traj : list state) : Prop :=
  Z.of_nat (length traj) = T
  ∧ traj !! 0 = Some x0
  ∧ ∀ t, 1 ≤ t → (Z.of_nat t < T)%Z →
      ∃ prev, traj !! (t - 1) = Some prev ∧ traj !! t = Some (f prev).

(** The body of the loop of a fixed-length simulation that steps with [f]. *)
Definition fixed_body (f : state → state) (t : nat) (traj : list state)
  : result (list state) :=
  current_shares ← np.getcol traj (t - 1);
  np.setcol traj t (f current_shares).

(** Every component of [d] is at most [rtol]. *)
Definition within (rtol : Qc) (d : state) : Prop :=
  ∀ i : fin 8, (d !!! i ≤ rtol)%Qc.

(** The componentwise distance between a state and its image. *)
Definition step_delta (f : state → state) (X : state) : state :=
  np.abs (np.subtract (f X) X).

Section Convergence.

Variable family_params : params_t.
Variable family_numeric_system : shares → shares → params_t → state.
Variable rtol : Qc.
Variable x0 : state.

(** Step [k] of the trajectory from [x0] is within tolerance: the state
    after it differs from the state before it by at most [rtol] in every
    component. *)
Definition close_at (k : nat) : Prop :=
  within rtol
    (step_delta (Simulator.F family_params family_numeric_system)
       (Nat.iter k (Simulator.F family_params family_numeric_system) x0)).

(** [k] is the first step within tolerance. *)
Definition first_close_at (k : nat) : Prop :=
  close_at k ∧ ∀ j, j < k → ¬ close_at j.

End Convergence.

(** The shares of each sex add up to one, within [tol]. *)
Definition simplex_invariant (tol : Qc) (X : state) : Prop :=
  (Qcabs (np.sum (np.first_half X) - 1) ≤ tol)%Qc
  ∧ (Qcabs (np.sum (np.second_half X) - 1) ≤ tol)%Qc.

(** Entry [i] of a 1-d array and entry [(i, j)] of a 2-d array. *)
Definition entry1 (r : list Qc) (i : nat) : Qc := default 0%Qc (r !! i).

Definition entry2 (J : list (list Qc)) (i j : nat) : Qc :=
  entry1 (default [] (J !! i)) j.

(** The sum of a list of numbers. *)
Definition Qc_sum (l : list Qc) : Qc := foldr Qcplus 0%Qc l.

(** The row vector [r] times the [m] by [n] matrix [J]: component [j] is the
    sum over [i] of [r_i * J_(i,j)]. *)
Definition vecmat (m n : nat) (r : list Qc) (J : list (list Qc)) : list Qc :=
  (λ j, Qc_sum ((λ i, entry1 r i * entry2 J i j)%Qc <$> seq 0 m)) <$> seq 0 n.

(** The eight residuals as the column the symbolic system returns: an array
    of shape (8, 1). *)
Definition column (r : list Qc) : np.ndarray := np.Arr2 ((λ ri, [ri]) <$> r).

(** The squared modulus, a rational number. *)
Definition cabs2 (z : np.complex) : Qc :=
  (np.re z * np.re z + np.im z * np.im z)%Qc.

(** Some component of [X] lies outside [0, 1] by more than [slack]. *)
Definition outside_domain (slack : Qc) (X : state) : Prop :=
  ∃ i : fin 8, (X !!! i < 0 - slack)%Qc ∨ (1 + slack < X !!! i)%Qc.

(** A solver instance as its constructor and the setter of [initial_guess]
    leave it. *)
Definition fresh_solver (family : Solver.Family) (guess : state)
  : gmap string Solver.pyvalue :=
  Solver.set_initial_guess (Solver.__init__ family) guess.

(** ** Example systems

    Small equations of motion and states on which the definitions above are
    run. *)

Module Examples.

Definition no_params : params_t := ∅.

(** The parameters of the isolated sub-populations scenario of the
    specification. *)
Definition isolated_params : params_t :=
  {[ "c" := flt 1.0; "PiAA" := flt 5.0; "Piaa" := flt 3.0 ]}.

(** In each sex, the shares of the first and of the last genotype change
    places. *)
Definition exchange_system : shares → shares → params_t → state :=
  λ m f _,
    [# m !!! 3%fin; m !!! 1%fin; m !!! 2%fin; m !!! 0%fin;
       f !!! 3%fin; f !!! 1%fin; f !!! 2%fin; f !!! 0%fin].

(** Both sexes take the mean of the male and the female shares. *)
Definition mixing_system : shares → shares → params_t → state :=
  λ m f _,
    let mean (i : fin 4) : Qc := ((m !!! i + f !!! i) * flt 0.5)%Qc in
    [# mean 0%fin; mean 1%fin; mean 2%fin; mean 3%fin;
       mean 0%fin; mean 1%fin; mean 2%fin; mean 3%fin].

Definition all_GA : state := [# 1; 0; 0; 0; 1; 0; 0; 0]%Qc.
Definition all_ga : state := [# 0; 0; 0; 1; 0; 0; 0; 1]%Qc.
Definition apart : state := [# 1; 0; 0; 0; 0; 0; 0; 1]%Qc.
Definition mixed : state :=
  [# flt 0.5; 0%Qc; 0%Qc; flt 0.5; flt 0.5; 0%Qc; 0%Qc; flt 0.5].

End Examples.

(** ** Example collaborators for the model *)

Module ModelExamples.

(** The 8 by 8 matrix with [d] on its diagonal and 0 elsewhere. *)
Definition diagonal (d : Qc) : list (list Qc) :=
  (λ i, (λ j, if decide (i = j) then d else 0%Qc) <$> seq 0 8) <$> seq 0 8.

(** Relaxation toward the point [p] at rate [k]: the equation of motion is
    [X + k * (p - X)], so the residual is [k * (p - X)], the Jacobian of the
    motion is [(1 - k) * I] and that of the residual [- k * I].  The system
    returns vectors as columns. *)
Definition relaxation (k : Qc) (p : state) : Model.symbolic_system := {|
  Model.residual X _ :=
    column (vec_to_list (vzip_with (λ pi xi, k * (pi - xi))%Qc p X));
  Model.residual_jacobian _ _ := np.Arr2 (diagonal (- k));
  Model.model_system X _ :=
    column (vec_to_list (vzip_with (λ pi xi, xi + k * (pi - xi))%Qc p X));
  Model.model_jacobian _ _ := np.Arr2 (diagonal (1 - k))
|}.

(** A minimizer that gives up at once: it evaluates the objective at the
    initial guess and reports success exactly when it is already zero. *)
Definition one_shot_minimize : scipy.minimize_t :=
  λ fun_ x0 method jac bounds constraints kwargs,
    value ← fun_ x0;
    Ok {| scipy.x := x0;
          scipy.success := bool_decide (value = 0%Qc);
          scipy.fun_ := np.Scalar value;
          scipy.message := "";
          scipy.nit := 0 |}.

(** A root finder that gives up at once: it evaluates the residual at the
    initial guess and reports success exactly when it is already zero. *)
Definition one_shot_root : scipy.root_t :=
  λ fun_ x0 method jac kwargs,
    value ← fun_ x0;
    Ok {| scipy.x := x0;
          scipy.success := bool_decide (Forall (λ v, v = 0%Qc) value);
          scipy.fun_ := np.Arr1 value;
          scipy.message := "";
          scipy.nit := 0 |}.

(** The eigenvalues of a triangular matrix: its diagonal entries. *)
Definition eig_triangular : scipy.eig_t :=
  λ a,
    match a with
    | np.Arr2 rows =>
        Ok ((λ i, np.Complex (entry2 rows i i) 0%Qc) <$> seq 0 (length rows))
    | _ => Raise ValueError
    end.

(** A state outside the unit interval in two components. *)
Definition outside : state :=
  [# flt 2; 0%Qc; 0%Qc; flt (-1); 1%Qc; 0%Qc; 0%Qc; 0%Qc].

End ModelExamples.

(** The eigenvalues of the relaxation at rate 1.5: the Jacobian of the
    motion is [-0.5 * I]. *)
Definition relaxation_eigenvalues : list np.complex :=
  (λ i, np.Complex (entry2 (ModelExamples.diagonal (1 - flt 1.5)) i i) 0%Qc)
    <$> seq 0 8.

(** ** Further vocabulary *)

(** The [m] states that follow [X] under a step that may raise: the first
    exception ends the run. *)
Fixpoint steps (G : state → result state) (X : state) (m : nat)
  : result (list state) :=
  match m with
  | O => Ok []
  | S m' => Y ← G X; rest ← steps G Y m'; Ok (Y :: rest)
  end.

(** The body of the loop of a fixed-length simulation whose step may raise. *)
Definition fixed_body_result (G : state → result state) (t : nat)
    (traj : list state) : result (list state) :=
  prev ← np.getcol traj (t - 1);
  new ← G prev;
  np.setcol traj t new.

(** The exception numpy raises for a number of time steps below one. *)
Definition no_steps_error (T : Z) : exn :=
  if decide (T < 0)%Z then ValueError else IndexError.

(** The gradient that broadcasting gives for a flat residual: component [j]
    is [r_j] times the sum of column [j] of the matrix. *)
Definition flat_gradient (m n : nat) (r : list Qc) (J : list (list Qc))
  : list Qc :=
  (λ j, entry1 r j * Qc_sum ((λ i, entry2 J i j) <$> seq 0 m))%Qc <$> seq 0 n.

(** [X] lies within the bounds, component by component. *)
Definition within_bounds (bounds : list (Qc * Qc)) (X : state) : Prop :=
  Forall2 (λ x b, (b.1 ≤ x)%Qc ∧ (x ≤ b.2)%Qc) (vec_to_list X) bounds.

(** Every constraint function vanishes at [X]. *)
Definition satisfies (constraints : list (string * (state → Qc))) (X : state)
  : Prop :=
  Forall (λ c, c.2 X = 0%Qc) constraints.

(** The method resolution order of [LeastSquaresSolver]. *)
Definition LeastSquaresSolver_mro : list (list (string * Solver.attr_kind)) :=
  [Solver.LeastSquaresSolver_class; Solver.Solver_class].

(** A symbolic system whose equation of motion returns three values. *)
Definition three_valued : Model.symbolic_system := {|
  Model.residual _ _ := np.Arr1 [];
  Model.residual_jacobian _ _ := np.Arr2 [];
  Model.model_system _ _ := np.Arr1 [flt 0.5; flt 0.25; flt 0.25];
  Model.model_jacobian _ _ := np.Arr2 []
|}.

(** The instance after the constructor and any number of assignments to
    [initial_guess], the only attributes the classes let a caller set. *)
Definition built (family : Solver.Family) (guesses : list state)
  : gmap string Solver.pyvalue :=
  foldl Solver.set_initial_guess (Solver.__init__ family) guesses.

(** The kinds of plot that [_plot_trajectories] knows. *)
Definition kinds : list string := ["genotypes"; "alpha_allele"; "gamma_allele"].

(** * Properties *)

(** ** Running the source's monad *)

Lemma bind_Ok {A B : Type} (f : A → result B) (a : A) : (Ok a ≫= f) = f a.
Proof. reflexivity. Qed.

Lemma for_loop_ext {S : Type} (body body' : nat → S → result S) ts s :
  (∀ t s, body t s = body' t s) → for_loop body ts s = for_loop body' ts s.
Proof.
  intros Hext. revert s. induction ts as [|t ts IH]; intros s; simpl; [done|].
  rewrite Hext. destruct (body' t s); simpl; auto.
Qed.

Lemma getitem_Some (d : params_t) key v :
  d !! key = Some v → getitem d key = Ok v.
Proof. unfold getitem. by intros ->. Qed.

(** Two canonical rationals with the same fraction are the same number. *)
Lemma flt_eq (a b : Qc) : this a = this b → a = b.
Proof. intros H. apply Qc_is_canon. rewrite H. reflexivity. Qed.

(** ** The isolated sub-populations initial condition *)

(** In exact arithmetic the state is the vector of the specification. *)
Lemma initial_condition_exact (family_params : params_t) (m0 c PiAA Piaa : Qc) :
  family_params !! "c" = Some c →
  family_params !! "PiAA" = Some PiAA →
  family_params !! "Piaa" = Some Piaa →
  Simulator.set_initial_condition family_params m0
  = Ok [# m0; 0; 0; 1 - m0; c * PiAA * m0; 0; 0; c * Piaa * (1 - m0)]%Qc.
Proof.
  intros Hc HAA Haa. unfold Simulator.set_initial_condition.
  rewrite !(getitem_Some _ _ _ Hc), (getitem_Some _ _ _ HAA),
    (getitem_Some _ _ _ Haa). reflexivity.
Qed.

Example initial_condition_exact_scenario :
  Simulator.set_initial_condition Examples.isolated_params (flt 0.3)
  = Ok [# flt 0.3; flt 0; flt 0; flt 0.7; flt 1.5; flt 0; flt 0; flt 2.1].
Proof.
  rewrite (initial_condition_exact _ _ (flt 1.0) (flt 5.0) (flt 3.0)) by done.
  repeat f_equal; by apply flt_eq.
Qed.

Section OnBinary64.

Import PrimFloat.

Lemma binary64_getitem_Some (d : Binary64.params_t) key v :
  d !! key = Some v → Binary64.getitem d key = Ok v.
Proof. unfold Binary64.getitem. by intros ->. Qed.

(** C8, as the code has it.  The initial condition is a function of the
    initial share [m0] and of the parameters only.  On the binary64 floats of
    the source the male half is [m0, 0, 0, 1 - m0] and the female half is
    [(c * PiAA) * m0, 0, 0, (c * Piaa) * (1 - m0)], every operation rounded.
    For [m0 = 0.3], [c = 1.0], [PiAA = 5.0], [Piaa = 3.0] the state is
    [0.3, 0, 0, 0.7, 1.5, 0, 0, 2.0999999999999996]: its last entry is the
    float just below 2.1. *)
Theorem initial_condition_isolated_subpopulations :
  (∀ (family_params : Binary64.params_t) (m0 c PiAA Piaa : float),
      family_params !! "c" = Some c →
      family_params !! "PiAA" = Some PiAA →
      family_params !! "Piaa" = Some Piaa →
      Binary64.set_initial_condition family_params m0
      = Ok [# m0; 0; 0; 1 - m0; c * PiAA * m0; 0; 0; c * Piaa * (1 - m0)]%float)
  ∧ Binary64.set_initial_condition
      {[ "c" := 1.0%float; "PiAA" := 5.0%float; "Piaa" := 3.0%float ]}
      0.3%float
    = Ok [# 0.3; 0; 0; 0.7; 1.5; 0; 0; 2.0999999999999996]%float
  ∧ next_up 2.0999999999999996%float = 2.1%float.
Proof.
  assert (Hgen : ∀ (family_params : Binary64.params_t) (m0 c PiAA Piaa : float),
      family_params !! "c" = Some c →
      family_params !! "PiAA" = Some PiAA →
      family_params !! "Piaa" = Some Piaa →
      Binary64.set_initial_condition family_params m0
      = Ok [# m0; 0; 0; 1 - m0; c * PiAA * m0; 0; 0; c * Piaa * (1 - m0)]%float).
  { intros ps m0 c PiAA Piaa Hc HAA Haa.
    unfold Binary64.set_initial_condition.
    rewrite !(binary64_getitem_Some _ _ _ Hc),
      (binary64_getitem_Some _ _ _ HAA), (binary64_getitem_Some _ _ _ Haa).
    reflexivity. }
  split; [exact Hgen|]. split; [|reflexivity].
  rewrite (Hgen _ _ 1.0%float 5.0%float 3.0%float) by done.
  reflexivity.
Qed.

End OnBinary64.

(** ** Trajectories of fixed length *)

Lemma length_iterates f x0 n : length (iterates f x0 n) = n.
Proof. unfold iterates. by rewrite length_fmap, length_seq. Qed.

Lemma iterates_S f x0 n :
  iterates f x0 (S n) = iterates f x0 n ++ [Nat.iter n f x0].
Proof. unfold iterates. by rewrite seq_S, fmap_app. Qed.

Lemma lookup_iterates f x0 n t :
  t < n → iterates f x0 n !! t = Some (Nat.iter t f x0).
Proof.
  intros Ht. unfold iterates. rewrite list_lookup_fmap, lookup_seq_lt by done.
  reflexivity.
Qed.

Lemma last_iterates f x0 n :
  list.last (iterates f x0 (S n)) = Some (Nat.iter n f x0).
Proof. rewrite iterates_S. apply last_snoc. Qed.

(** One step of the loop: with the iterates up to [k] in place, column
    [k + 1] receives the next iterate, whatever it held. *)
Lemma fixed_body_step f x0 k (old : state) (rest : list state) :
  fixed_body f (S k) (iterates f x0 (S k) ++ old :: rest)
  = Ok (iterates f x0 (S (S k)) ++ rest).
Proof.
  unfold fixed_body, np.getcol, np.setcol.
  replace (S k - 1) with k by lia.
  rewrite lookup_app_l by (rewrite length_iterates; lia).
  rewrite lookup_iterates by lia. rewrite bind_Ok.
  rewrite decide_True by (rewrite length_app, length_iterates; simpl; lia).
  rewrite insert_app_r_alt by (rewrite length_iterates; lia).
  rewrite length_iterates, Nat.sub_diag. cbn [insert list_insert].
  change (f (Nat.iter k f x0)) with (Nat.iter (S k) f x0).
  by rewrite (cons_middle (Nat.iter (S k) f x0)), app_assoc, <- iterates_S.
Qed.

(** The loop fills the columns in turn: entered with the iterates up to [k]
    in place and [m] columns to go, it leaves the iterates up to [k + m]. *)
Lemma fixed_loop_fills f x0 (junk : nat → state) m : ∀ k,
  for_loop (fixed_body f) (seq (S k) m)
    (iterates f x0 (S k) ++ (junk <$> seq (S k) m))
  = Ok (iterates f x0 (S k + m)).
Proof.
  induction m as [|m IH]; intros k.
  - simpl. by rewrite app_nil_r, Nat.add_0_r.
  - cbn [seq for_loop fmap list_fmap].
    rewrite fixed_body_step, bind_Ok, IH. do 2 f_equal. lia.
Qed.

(** A fixed-length simulation whose loop steps with [f] returns the first
    [T] iterates of [f], whatever the fresh array held. *)
Lemma fixed_trajectory_iterates f
    (body : nat → list state → result (list state))
    (junk : nat → state) x0 (T : Z) :
  (1 ≤ T)%Z →
  (∀ t traj, body t traj = fixed_body f t traj) →
  (traj ← np.empty junk T;
   traj ← np.setcol traj 0 x0;
   for_loop body (Simulator.range1 T) traj)
  = Ok (iterates f x0 (Z.to_nat T)).
Proof.
  intros HT Hbody. unfold np.empty. rewrite decide_False by lia.
  rewrite bind_Ok. unfold np.setcol.
  destruct (Z.to_nat T) as [|m] eqn:Hn; [lia|].
  rewrite decide_True by (rewrite length_fmap, length_seq; lia).
  rewrite bind_Ok. unfold Simulator.range1. rewrite Hn.
  replace (S m - 1) with m by lia.
  rewrite (for_loop_ext _ _ _ _ Hbody).
  cbn [seq fmap list_fmap insert list_insert].
  exact (fixed_loop_fills f x0 junk m 0).
Qed.

Section SimulatorFixed.

Variable family_params : params_t.
Variable family_numeric_system : shares → shares → params_t → state.

#[local] Abbreviation F := (Simulator.F family_params family_numeric_system).
#[local] Abbreviation _simulate_fixed_trajectory :=
  (Simulator._simulate_fixed_trajectory family_params family_numeric_system).

Lemma simulate_fixed_trajectory_iterates junk x0 T :
  (1 ≤ T)%Z →
  _simulate_fixed_trajectory junk x0 T = Ok (iterates F x0 (Z.to_nat T)).
Proof.
  intros HT. unfold Simulator._simulate_fixed_trajectory.
  by apply fixed_trajectory_iterates.
Qed.

(** A number of time steps below one is refused by numpy: no trajectory. *)
Lemma simulate_fixed_trajectory_no_steps junk x0 T :
  (T < 1)%Z →
  _simulate_fixed_trajectory junk x0 T
  = Raise (if decide (T < 0)%Z then ValueError else IndexError).
Proof.
  intros HT. unfold Simulator._simulate_fixed_trajectory, np.empty.
  destruct (decide (T < 0)%Z) as [|Hge]; [done|].
  assert (T = 0%Z) as -> by lia. reflexivity.
Qed.

(** The fixed-length simulation of [Model]: the same loop, stepping with the
    eight values that [F] returns. *)
Lemma model_simulate_iterates (params : params_t) (ws : Model.symbolic_system)
    (f : state → state) junk x0 T :
  (1 ≤ T)%Z →
  (∀ X, np.to_col (Model.F params ws X) = Ok (f X)) →
  Model.simulate params ws junk x0 T = Ok (iterates f x0 (Z.to_nat T)).
Proof.
  intros HT Hf. unfold Model.simulate.
  apply fixed_trajectory_iterates; [done|].
  intros t traj. unfold fixed_body.
  destruct (np.getcol traj (t - 1)) as [prev|e]; simpl; [|done].
  by rewrite Hf.
Qed.

Lemma iterates_is_trajectory f x0 (T : Z) :
  (1 ≤ T)%Z → is_trajectory f x0 T (iterates f x0 (Z.to_nat T)).
Proof.
  intros HT. split; [rewrite length_iterates; lia|].
  split; [by rewrite lookup_iterates by lia|].
  intros t Ht1 HtT. exists (Nat.iter (t - 1) f x0).
  rewrite !lookup_iterates by lia. split; [done|].
  destruct t as [|t]; [lia|]. simpl. by rewrite Nat.sub_0_r.
Qed.

(** C7.  For every initial state and every [T >= 1] the fixed-length
    simulation returns exactly [T] states: the first is the initial condition
    and every later one is [F] of the one before; the loop runs its [T - 1]
    steps with no test on the states.  This holds of
    [Simulator._simulate_fixed_trajectory], and of [Model.simulate] when the
    symbolic system returns eight values [f X] for the equation of motion. *)
Theorem simulate_fixed_trajectory_spec junk x0 (T : Z) :
  (1 ≤ T)%Z →
  (∃ traj,
     _simulate_fixed_trajectory junk x0 T = Ok traj
     ∧ is_trajectory F x0 T traj)
  ∧ (∀ (params : params_t) (ws : Model.symbolic_system) (f : state → state),
       (∀ X, np.to_col (Model.F params ws X) = Ok (f X)) →
       ∃ traj,
         Model.simulate params ws junk x0 T = Ok traj
         ∧ is_trajectory f x0 T traj).
Proof.
  intros HT. split.
  - exists (iterates F x0 (Z.to_nat T)).
    split; [by apply simulate_fixed_trajectory_iterates|].
    by apply iterates_is_trajectory.
  - intros params ws f Hf. exists (iterates f x0 (Z.to_nat T)).
    split; [by apply model_simulate_iterates|].
    by apply iterates_is_trajectory.
Qed.

(** [simulate] with [T] given is the fixed-length simulation, whatever
    [rtol] is. *)
Lemma simulate_prefers_T fuel junk x0 rtol T :
  Simulator.simulate family_params family_numeric_system fuel junk (Some x0)
    rtol (Some T)
  = Some (_simulate_fixed_trajectory junk x0 T).
Proof. reflexivity. Qed.

(** With neither [T] nor [rtol] the call is refused. *)
Lemma simulate_needs_T_or_rtol fuel junk stored :
  Simulator.simulate family_params family_numeric_system fuel junk stored
    None None
  = Some (Raise ValueError).
Proof. reflexivity. Qed.

End SimulatorFixed.

(** ** Trajectories of variable length *)

Lemma existsb_greater_false (l : list Qc) rtol :
  existsb (λ x, x) ((λ d, bool_decide (rtol < d)%Qc) <$> l) = false
  ↔ Forall (λ d, (d ≤ rtol)%Qc) l.
Proof.
  induction l as [|d l IH]; simpl.
  - split; [constructor|done].
  - rewrite list.Forall_cons, <- IH. split.
    + intros [Hd Hl]%orb_false_iff. split; [|done].
      apply bool_decide_eq_false in Hd. by apply Qcnot_lt_le.
    + intros [Hd Hl]. apply orb_false_iff. split; [|done].
      apply bool_decide_eq_false. by apply Qcle_not_lt.
Qed.

Lemma any_greater_false d rtol :
  np.any (np.greater d rtol) = false ↔ within rtol d.
Proof.
  unfold np.any, np.greater, within. rewrite vec_to_list_map.
  rewrite existsb_greater_false.
  exact (Forall_vlookup (λ d : Qc, (d ≤ rtol)%Qc) d).
Qed.

Lemma any_greater_true d rtol :
  np.any (np.greater d rtol) = true ↔ ¬ within rtol d.
Proof.
  rewrite <- any_greater_false. by destruct (np.any (np.greater d rtol)).
Qed.

Lemma within_dec rtol d : {within rtol d} + {¬ within rtol d}.
Proof.
  destruct (np.any (np.greater d rtol)) eqn:E.
  - right. by apply any_greater_true.
  - left. by apply any_greater_false.
Qed.

(** The initial [delta] is 1 in every component: it passes the loop's test
    exactly when [rtol < 1]. *)
Lemma within_ones8 rtol : within rtol np.ones8 ↔ (1 ≤ rtol)%Qc.
Proof.
  unfold within, np.ones8. split.
  - intros H. specialize (H 0%fin). by rewrite vlookup_replicate in H.
  - intros H i. by rewrite vlookup_replicate.
Qed.

Section SimulatorVariable.

Variable family_params : params_t.
Variable family_numeric_system : shares → shares → params_t → state.
Variable rtol : Qc.
Variable x0 : state.

#[local] Abbreviation F := (Simulator.F family_params family_numeric_system).
#[local] Abbreviation while_loop :=
  (Simulator.while_loop family_params family_numeric_system).
#[local] Abbreviation run fuel :=
  (Simulator._simulate_variable_trajectory family_params family_numeric_system
     fuel x0 rtol).

#[local] Abbreviation close :=
  (close_at family_params family_numeric_system rtol x0).
#[local] Abbreviation first_close :=
  (first_close_at family_params family_numeric_system rtol x0).

Lemma close_dec k : {close k} + {¬ close k}.
Proof. apply within_dec. Qed.

(** One turn of the loop, with the iterates up to [k] in the trajectory. *)
Lemma while_loop_unfold fuel k delta :
  while_loop fuel rtol (iterates F x0 (S k)) delta =
  if np.any (np.greater delta rtol) then
    match fuel with
    | O => None
    | S fuel' =>
        while_loop fuel' rtol (iterates F x0 (S (S k)))
          (step_delta F (Nat.iter k F x0))
    end
  else Some (Ok (iterates F x0 (S k))).
Proof.
  destruct fuel as [|fuel]; simpl; [done|].
  destruct (np.any (np.greater delta rtol)); [|done].
  unfold np.lastcol. rewrite last_iterates.
  unfold np.append_col. by rewrite <- iterates_S.
Qed.

(** While no step is within tolerance the loop keeps running. *)
Lemma while_loop_runs fuel : ∀ k delta,
  ¬ within rtol delta →
  (∀ j, k ≤ j → j < k + fuel → ¬ close j) →
  while_loop fuel rtol (iterates F x0 (S k)) delta = None.
Proof.
  induction fuel as [|fuel IH]; intros k delta Hdelta Hfar;
    rewrite while_loop_unfold;
    apply any_greater_true in Hdelta; rewrite Hdelta; [done|].
  apply IH.
  - apply Hfar; lia.
  - intros j Hj1 Hj2. apply Hfar; lia.
Qed.

(** The loop leaves at the first step within tolerance, with the states up
    to the one that step produced. *)
Lemma while_loop_stops fuel : ∀ k delta j,
  ¬ within rtol delta →
  k ≤ j → j < k + fuel →
  close j → (∀ i, k ≤ i → i < j → ¬ close i) →
  while_loop fuel rtol (iterates F x0 (S k)) delta
  = Some (Ok (iterates F x0 (S (S j)))).
Proof.
  induction fuel as [|fuel IH]; intros k delta j Hdelta Hkj Hj Hclose Hfirst;
    [lia|].
  rewrite while_loop_unfold.
  apply any_greater_true in Hdelta. rewrite Hdelta.
  destruct (decide (j = k)) as [->|Hne].
  - rewrite while_loop_unfold.
    apply any_greater_false in Hclose. by rewrite Hclose.
  - apply IH; [|lia|lia|done|].
    + apply Hfirst; lia.
    + intros i Hi1 Hi2. apply Hfirst; lia.
Qed.

(** Among the first [n] steps, either none is within tolerance or there is a
    first one. *)
Lemma first_close_below n :
  (∀ j, j < n → ¬ close j) ∨ (∃ k, k < n ∧ first_close k).
Proof.
  induction n as [|n [Hnone|(k & Hk & Hfirst)]].
  - left. intros j Hj. lia.
  - destruct (close_dec n) as [Hc|Hc].
    + right. exists n. split; [lia|]. split; [done|].
      intros j Hj. by apply Hnone.
    + left. intros j Hj. destruct (decide (j = n)) as [->|]; [done|].
      apply Hnone. lia.
  - right. exists k. split; [lia|done].
Qed.

(** With [rtol >= 1] the loop's test fails at once. *)
Lemma run_tolerant fuel : (1 ≤ rtol)%Qc → run fuel = Some (Ok [x0]).
Proof.
  intros H. unfold Simulator._simulate_variable_trajectory.
  rewrite (while_loop_unfold fuel 0).
  apply within_ones8, any_greater_false in H. by rewrite H.
Qed.

Lemma run_stops fuel k :
  (rtol < 1)%Qc → k < fuel → first_close k →
  run fuel = Some (Ok (iterates F x0 (S (S k)))).
Proof.
  intros Hr Hk [Hc Hfirst]. unfold Simulator._simulate_variable_trajectory.
  apply (while_loop_stops fuel 0); [|lia|lia|done|].
  - rewrite within_ones8. by apply Qclt_not_le.
  - intros i _ Hi. by apply Hfirst.
Qed.

Lemma run_runs fuel :
  (rtol < 1)%Qc → (∀ j, j < fuel → ¬ close j) → run fuel = None.
Proof.
  intros Hr Hfar. unfold Simulator._simulate_variable_trajectory.
  apply (while_loop_runs fuel 0).
  - rewrite within_ones8. by apply Qclt_not_le.
  - intros j _ Hj. apply Hfar. lia.
Qed.

(** What a run that has left the loop returns. *)
Lemma run_returns fuel r :
  run fuel = Some r →
  ((1 ≤ rtol)%Qc ∧ r = Ok [x0])
  ∨ ((rtol < 1)%Qc ∧ ∃ k, k < fuel ∧ first_close k
       ∧ r = Ok (iterates F x0 (S (S k)))).
Proof.
  intros Hrun. destruct (Qclt_le_dec rtol 1) as [Hr|Hr].
  - right. split; [done|].
    destruct (first_close_below fuel) as [Hnone|(k & Hk & Hfirst)].
    + rewrite run_runs in Hrun by done. discriminate.
    + exists k. rewrite (run_stops fuel k) in Hrun by done.
      injection Hrun as <-. done.
  - left. rewrite run_tolerant in Hrun by done. injection Hrun as <-. done.
Qed.

(** More fuel does not change what a finished run returned. *)
Lemma run_fuel_mono fuel fuel' r :
  fuel ≤ fuel' → run fuel = Some r → run fuel' = Some r.
Proof.
  intros Hle Hrun.
  destruct (run_returns _ _ Hrun) as [[Hr ->]|(Hr & k & Hk & Hfirst & ->)].
  - by apply run_tolerant.
  - apply run_stops; [done|lia|done].
Qed.

End SimulatorVariable.

Lemma vlookup_step_delta f X (i : fin 8) :
  step_delta f X !!! i = Qcabs (f X !!! i - X !!! i).
Proof.
  unfold step_delta, np.abs, np.subtract.
  by rewrite vlookup_map, vlookup_zip_with.
Qed.


Lemma iterates_starts f x0 k :
  ∃ rest, iterates f x0 (S (S k)) = x0 :: f x0 :: rest.
Proof.
  unfold iterates. cbn [seq fmap list_fmap]. eexists. reflexivity.
Qed.





(** A run that ends: under the mixing system the two sexes agree after one
    step, and the second step moves nothing. *)
Example simulate_variable_trajectory_mixing :
  Simulator._simulate_variable_trajectory Examples.no_params
    Examples.mixing_system 2 Examples.apart (flt 0.1)
  = Some (Ok [Examples.apart; Examples.mixed; Examples.mixed]).
Proof.
  rewrite (run_stops _ _ _ _ 2 1).
  - do 2 f_equal. unfold iterates. cbn [seq fmap list_fmap].
    repeat f_equal; apply vec_eq; intros i; inv_fin i;
      repeat (intros i; inv_fin i); try (by apply flt_eq); intros i; inv_fin i.
  - done.
  - lia.
  - split.
    + apply any_greater_false. vm_compute. reflexivity.
    + intros j Hj. assert (j = 0) as -> by lia.
      apply any_greater_true. vm_compute. reflexivity.
Qed.

(** C10.  [simulate] with [rtol] given and [T] left out is the
    variable-length simulation, and before its first iteration [delta] is 1
    in every component.  So for every [rtol >= 1] the variable-length
    simulation returns the initial state alone, already with no iteration
    allowed and whatever the equation of motion is: [F] is not applied.  For
    every [rtol < 1] the body of the loop is entered and [F] is applied to the
    initial state: with no iteration allowed there is no result; when the
    first step moves every component by at most [rtol], the first iteration
    returns exactly [x0] and [F x0]; when step [k] is the first such step, the
    run returns within [k + 1] iterations a trajectory of [k + 2] states
    that starts with [x0] and [F x0]; and whatever is returned is never the
    initial state alone, it starts with [x0] and [F x0] and has at least two
    states. *)
Theorem simulate_variable_trajectory_first_test
    (family_params : params_t)
    (family_numeric_system : shares → shares → params_t → state)
    (x0 : state) (rtol : Qc) :
  let F := Simulator.F family_params family_numeric_system in
  let run fuel :=
    Simulator._simulate_variable_trajectory family_params family_numeric_system
      fuel x0 rtol in
  let step_within k :=
    ∀ i : fin 8,
      (Qcabs (F (Nat.iter k F x0) !!! i - Nat.iter k F x0 !!! i) ≤ rtol)%Qc in
  (∀ fuel junk,
     Simulator.simulate family_params family_numeric_system fuel junk
       (Some x0) (Some rtol) None = run fuel)
  ∧ ((1 ≤ rtol)%Qc → ∀ fuel, run fuel = Some (Ok [x0]))
  ∧ ((rtol < 1)%Qc →
       run 0 = None
       ∧ (step_within 0 → ∀ fuel, run (S fuel) = Some (Ok [x0; F x0]))
       ∧ (∀ k, step_within k → (∀ j, j < k → ¬ step_within j) →
            ∀ fuel, k < fuel →
              ∃ rest,
                run fuel = Some (Ok (x0 :: F x0 :: rest)) ∧ length rest = k)
       ∧ (∀ fuel, run fuel ≠ Some (Ok [x0]))
       ∧ ∀ fuel traj, run fuel = Some (Ok traj) →
           2 ≤ length traj ∧ ∃ rest, traj = x0 :: F x0 :: rest).
Proof.
  intros F run step_within. split; [done|]. split.
  - intros Hr fuel. by apply run_tolerant.
  - intros Hr.
    assert (Hclose : ∀ k, step_within k
              ↔ close_at family_params family_numeric_system rtol x0 k).
    { intros k. unfold step_within, close_at, within.
      split; intros H i; specialize (H i);
        by rewrite vlookup_step_delta in *. }
    assert (Hstops : ∀ k, step_within k → (∀ j, j < k → ¬ step_within j) →
              ∀ fuel, k < fuel →
                run fuel = Some (Ok (iterates F x0 (S (S k))))).
    { intros k Hk Hfirst fuel Hfuel.
      apply (run_stops _ _ _ _ fuel k); [done|done|].
      split; [by apply Hclose|]. intros j Hj Hcj.
      by apply (Hfirst j Hj), Hclose. }
    assert (Hreturns : ∀ fuel traj, run fuel = Some (Ok traj) →
              2 ≤ length traj ∧ ∃ rest, traj = x0 :: F x0 :: rest).
    { intros fuel traj Hrun.
      destruct (run_returns _ _ _ _ _ _ Hrun)
        as [[Hr' _]|(_ & k & _ & _ & [= ->])].
      - by apply Qclt_not_le in Hr.
      - rewrite length_iterates. split; [lia|apply iterates_starts]. }
    split; [|split; [|split; [|split]]].
    + destruct (run 0) as [r|] eqn:Hrun; [|done].
      destruct (run_returns _ _ _ _ _ _ Hrun)
        as [[Hr' _]|(_ & k & Hk & _)]; [|lia].
      by apply Qclt_not_le in Hr.
    + intros H0 fuel.
      rewrite (Hstops 0 H0) by (intros; lia). reflexivity.
    + intros k Hk Hfirst fuel Hfuel.
      rewrite (Hstops k Hk Hfirst fuel Hfuel).
      destruct (iterates_starts F x0 k) as [rest Hrest].
      exists rest. split; [by rewrite Hrest|].
      apply (f_equal length) in Hrest. rewrite length_iterates in Hrest.
      simpl in Hrest. lia.
    + intros fuel Hrun. destruct (Hreturns fuel [x0] Hrun) as [Hlen _].
      simpl in Hlen. lia.
    + exact Hreturns.
Qed.

(** ** The simplex invariant along trajectories *)

Lemma iterates_invariant (P : state → Prop) f x0 n :
  (∀ X, P X → P (f X)) → P x0 → Forall P (iterates f x0 n).
Proof.
  intros Hstep H0. unfold iterates. apply Forall_fmap, Forall_forall.
  intros t _. simpl. induction t as [|t IH]; simpl; auto.
Qed.

(** C9.  When the equation of motion keeps the two half-sums within [tol] of
    one, and the initial state has them so, every state of every trajectory
    the simulator returns has them so: from the fixed-length simulation, from
    the variable-length simulation and from [simulate]. *)
Theorem trajectories_keep_simplex_invariant
    (family_params : params_t)
    (family_numeric_system : shares → shares → params_t → state)
    (tol : Qc) (x0 : state) :
  let F := Simulator.F family_params family_numeric_system in
  (∀ X, simplex_invariant tol X → simplex_invariant tol (F X)) →
  simplex_invariant tol x0 →
  (∀ junk T traj,
     Simulator._simulate_fixed_trajectory family_params family_numeric_system
       junk x0 T = Ok traj →
     Forall (simplex_invariant tol) traj)
  ∧ (∀ fuel rtol traj,
       Simulator._simulate_variable_trajectory family_params
         family_numeric_system fuel x0 rtol = Some (Ok traj) →
       Forall (simplex_invariant tol) traj)
  ∧ (∀ fuel junk rtol T traj,
       Simulator.simulate family_params family_numeric_system fuel junk
         (Some x0) rtol T = Some (Ok traj) →
       Forall (simplex_invariant tol) traj).
Proof.
  intros F Hstep H0.
  assert (Hfixed : ∀ junk T traj,
     Simulator._simulate_fixed_trajectory family_params family_numeric_system
       junk x0 T = Ok traj →
     Forall (simplex_invariant tol) traj).
  { intros junk T traj Hrun. destruct (decide (1 ≤ T)%Z) as [HT|HT].
    - rewrite simulate_fixed_trajectory_iterates in Hrun by done.
      injection Hrun as <-. by apply iterates_invariant.
    - rewrite simulate_fixed_trajectory_no_steps in Hrun by lia. done. }
  assert (Hvariable : ∀ fuel rtol traj,
       Simulator._simulate_variable_trajectory family_params
         family_numeric_system fuel x0 rtol = Some (Ok traj) →
       Forall (simplex_invariant tol) traj).
  { intros fuel rtol traj Hrun.
    destruct (run_returns _ _ _ _ _ _ Hrun)
      as [[_ [= ->]]|(_ & k & _ & _ & [= ->])].
    - by apply Forall_singleton.
    - by apply iterates_invariant. }
  split; [exact Hfixed|]. split; [exact Hvariable|].
  intros fuel junk rtol [T|] traj Hrun; simpl in Hrun.
  - injection Hrun as Hrun. by apply (Hfixed junk T).
  - destruct rtol as [rtol|]; [by apply (Hvariable fuel rtol)|done].
Qed.

(** ** The gradient of the least-squares objective *)

Lemma stretch_length {A : Type} (m : nat) (l : list A) :
  length l = m → np.stretch m l = l.
Proof. intros <-. by destruct l as [|x [|y l]]. Qed.

Lemma foldl_Qcplus x ys : foldl Qcplus x ys = (x + Qc_sum ys)%Qc.
Proof.
  revert x. induction ys as [|y ys IH]; intros x; simpl.
  - ring.
  - rewrite IH. unfold Qc_sum. ring.
Qed.

Lemma entry1_scale (x : Qc) (row : list Qc) j :
  entry1 (Qcmult x <$> row) j = (x * entry1 row j)%Qc.
Proof.
  unfold entry1. rewrite list_lookup_fmap.
  destruct (row !! j); simpl; [done|ring].
Qed.

(** The product of a column with a matrix under broadcasting: row [i] of the
    matrix scaled by entry [i] of the column. *)
Lemma scale_rows n (r : list Qc) (J : list (list Qc)) :
  Forall (λ row, length row = n) J →
  zip_with (zip_with Qcmult) (replicate n <$> r) J
  = zip_with (λ x row, Qcmult x <$> row) r J.
Proof.
  intros HJ. revert r. induction HJ as [|row J Hrow HJ IH]; intros [|x r];
    simpl; try done.
  rewrite IH. f_equal. apply zip_with_replicate_l. lia.
Qed.

Lemma length_colsum (c0 : list Qc) (cs : list (list Qc)) :
  Forall (λ row, length row = length c0) cs →
  length (foldl (zip_with Qcplus) c0 cs) = length c0.
Proof.
  intros Hcs. revert c0 Hcs. induction cs as [|c cs IH]; intros c0 Hcs;
    simpl; [done|].
  apply list.Forall_cons in Hcs as [Hc Hcs].
  assert (Hlen : length (zip_with Qcplus c0 c) = length c0)
    by (rewrite length_zip_with; lia).
  rewrite IH; [done|]. by rewrite Hlen.
Qed.

(** Entry [j] of the sum of the rows, added one after the other. *)
Lemma lookup_colsum (cs : list (list Qc)) : ∀ (c0 : list Qc) j x,
  c0 !! j = Some x →
  Forall (λ row, length row = length c0) cs →
  foldl (zip_with Qcplus) c0 cs !! j
  = Some (foldl Qcplus x ((λ row, entry1 row j) <$> cs)).
Proof.
  induction cs as [|c cs IH]; intros c0 j x Hx Hcs; simpl; [done|].
  apply list.Forall_cons in Hcs as [Hc Hcs].
  assert (Hlen : length (zip_with Qcplus c0 c) = length c0)
    by (rewrite length_zip_with; lia).
  destruct (lookup_lt_is_Some_2 c j) as [y Hy].
  { rewrite Hc. by apply lookup_lt_Some with x. }
  apply IH.
  - rewrite lookup_zip_with, Hx, Hy. simpl. unfold entry1. by rewrite Hy.
  - by rewrite Hlen.
Qed.

(** Column [j] of the scaled rows is the list of the products
    [r_i * J_(i,j)]. *)
Lemma column_of_scaled_rows (r : list Qc) (J : list (list Qc)) j :
  length J = length r →
  (λ row, entry1 row j) <$> zip_with (λ x row, Qcmult x <$> row) r J
  = (λ i, entry1 r i * entry2 J i j)%Qc <$> seq 0 (length r).
Proof.
  intros Hlen. apply list_eq. intros i.
  rewrite !list_lookup_fmap, lookup_zip_with.
  destruct (decide (i < length r)) as [Hi|Hi].
  - destruct (lookup_lt_is_Some_2 r i Hi) as [x Hx].
    destruct (lookup_lt_is_Some_2 J i) as [row Hrow]; [by rewrite Hlen|].
    rewrite Hx, Hrow, lookup_seq_lt by done. simpl.
    unfold entry2. rewrite Hrow. simpl. rewrite entry1_scale.
    unfold entry1 at 2. by rewrite Hx.
  - rewrite lookup_seq_ge by lia.
    rewrite (lookup_ge_None_2 r) by lia. done.
Qed.

Lemma ncols_column (r : list Qc) :
  0 < length r → np.ncols ((λ ri, [ri]) <$> r) = 1.
Proof. destruct r; simpl; [lia|done]. Qed.

Lemma ncols_rows n (J : list (list Qc)) :
  Forall (λ row, length row = n) J → 0 < length J → np.ncols J = n.
Proof. intros [|row J' Hrow _]; simpl; [lia|done]. Qed.

Lemma bdim_same m : np.bdim m m = Ok m.
Proof. unfold np.bdim. by rewrite decide_True. Qed.

Lemma bdim_1_l n : np.bdim 1 n = Ok n.
Proof. unfold np.bdim. repeat case_decide; congruence. Qed.

(** Broadcasting, then [np.sum(..., axis=0)]: a column of [m] residuals
    against an [m] by [n] matrix gives the vector-matrix product. *)
Lemma sum_axis0_column_times_matrix m n (r : list Qc) (J : list (list Qc)) :
  0 < m → length r = m → length J = m → Forall (λ row, length row = n) J →
  (prod ← np.multiply (column r) (np.Arr2 J); np.sum_axis0 prod)
  = Ok (np.Arr1 (vecmat m n r J)).
Proof.
  intros Hm Hr HJ Hrows. unfold np.multiply, np.broadcast, column.
  cbn [np.rows2 np.ndim]. rewrite length_fmap, Hr, HJ.
  rewrite bdim_same, bind_Ok.
  rewrite ncols_column by lia. rewrite bdim_1_l, bind_Ok.
  rewrite (ncols_rows n J) by (done || lia).
  rewrite <- list_fmap_compose.
  rewrite (stretch_length m ((np.stretch n ∘ (λ ri : Qc, [ri])) <$> r))
    by (by rewrite length_fmap).
  rewrite (list_fmap_ext (np.stretch n) (λ x, x) J), list_fmap_id.
  2:{ intros i row Hrow. apply stretch_length.
      apply (Forall_lookup_1 _ _ _ _ Hrows Hrow). }
  rewrite (stretch_length m J) by done.
  change (np.stretch n ∘ (λ ri : Qc, [ri])) with (replicate (A:=Qc) n).
  rewrite scale_rows by done. rewrite bind_Ok.
  change (np.of_rows2 (2 `max` 2) ?C) with (np.Arr2 C).
  assert (Hscaled : Forall (λ row, length row = n)
            (zip_with (λ x row, Qcmult x <$> row) r J)).
  { clear -Hrows. revert r.
    induction Hrows as [|row J Hrow HJrows IH]; intros [|x r]; simpl;
      constructor; [by rewrite length_fmap|apply IH]. }
  assert (Hcols : ∀ j,
    (λ row, entry1 row j) <$> zip_with (λ x row, Qcmult x <$> row) r J
    = (λ i, entry1 r i * entry2 J i j)%Qc <$> seq 0 m).
  { intros j. rewrite column_of_scaled_rows by lia. by rewrite Hr. }
  destruct (zip_with (λ x row, Qcmult x <$> row) r J) as [|c0 cs] eqn:HC.
  { apply (f_equal length) in HC. rewrite length_zip_with in HC.
    simpl in HC. lia. }
  apply list.Forall_cons in Hscaled as [Hc0 Hcs].
  cbn [np.sum_axis0]. do 2 f_equal.
  apply list_eq. intros j. unfold vecmat. rewrite list_lookup_fmap.
  destruct (decide (j < n)) as [Hj|Hj].
  - destruct (lookup_lt_is_Some_2 c0 j) as [y Hy]; [lia|].
    rewrite (lookup_colsum _ _ j y Hy) by (by rewrite Hc0).
    rewrite lookup_seq_lt by done. simpl. f_equal.
    rewrite foldl_Qcplus, <- Hcols. simpl. unfold entry1 at 2.
    by rewrite Hy.
  - rewrite lookup_seq_ge by lia. simpl. apply lookup_ge_None_2.
    rewrite length_colsum by (by rewrite Hc0). lia.
Qed.

(** C1.  For every state [X] and parameter set, when the symbolic system
    returns the residual as its column of eight values [r] and the residual
    Jacobian as the 8 by 8 matrix [J], [_jacobian], the function that
    [_get_steady_state] hands to the constrained minimizer as the gradient of
    the objective, returns the row vector [r] times [J]: its component [j] is
    the sum over [i] of [r_i * J_(i,j)]. *)
Theorem objective_gradient_is_residual_times_jacobian
    (params solver_kwargs : params_t) (ws : Model.symbolic_system)
    (optimize_minimize : scipy.minimize_t)
    (X : state) (r : list Qc) (J : list (list Qc)) :
  Model.residual ws X params = column r →
  length r = 8 →
  Model.residual_jacobian ws X params = np.Arr2 J →
  length J = 8 →
  Forall (λ row, length row = 8) J →
  Model._jacobian params ws X = Ok (np.Arr1 (vecmat 8 8 r J))
  ∧ ∀ guess,
      Model._get_steady_state params solver_kwargs ws optimize_minimize guess
      = optimize_minimize (Model._objective params ws) guess "SLSQP"
          (Model._jacobian params ws) Model._bound_constraints
          Model._equality_constraints solver_kwargs.
Proof.
  intros Hres Hr Hjac HJ Hrows. split; [|done].
  unfold Model._jacobian, Model._residual, Model._residual_jacobian.
  rewrite Hres, Hjac, !bind_Ok.
  apply sum_axis0_column_times_matrix; [lia|done..].
Qed.

(** ** Stability *)

Lemma Q2R_Qcplus (a b : Qc) : Q2R (a + b)%Qc = (Q2R a + Q2R b)%R.
Proof.
  rewrite <- Q2R_plus. apply Qeq_eqR. simpl. apply Qred_correct.
Qed.

Lemma Q2R_Qcmult (a b : Qc) : Q2R (a * b)%Qc = (Q2R a * Q2R b)%R.
Proof.
  rewrite <- Q2R_mult. apply Qeq_eqR. simpl. apply Qred_correct.
Qed.

Lemma cabs_sqrt z : np.cabs z = sqrt (Q2R (cabs2 z)).
Proof.
  unfold np.cabs, cabs2. by rewrite Q2R_Qcplus, !Q2R_Qcmult.
Qed.

Lemma cabs2_nonneg z : (0 <= Q2R (cabs2 z))%R.
Proof.
  unfold cabs2. rewrite Q2R_Qcplus, !Q2R_Qcmult.
  pose proof (Rle_0_sqr (Q2R (np.re z))) as H1.
  pose proof (Rle_0_sqr (Q2R (np.im z))) as H2.
  unfold Rsqr in *. lra.
Qed.

(** The modulus is below one exactly when the squared modulus is; the latter
    is computable. *)
Lemma cabs_lt_1 z : (np.cabs z < 1)%R ↔ (cabs2 z < 1)%Qc.
Proof.
  rewrite cabs_sqrt. pose proof (cabs2_nonneg z) as Hpos.
  assert (H1 : Q2R 1%Qc = 1%R) by (unfold Q2R; simpl; lra).
  split.
  - intros Hlt. apply Rlt_Qlt. rewrite H1.
    apply sqrt_lt_0_alt. by rewrite sqrt_1.
  - intros Hlt. apply Qlt_Rlt in Hlt. rewrite H1 in Hlt.
    rewrite <- sqrt_1. apply sqrt_lt_1_alt. lra.
Qed.

Lemma less_cabs_1_at z :
  (if Rlt_dec (np.cabs z) 1 then true else false)
  = bool_decide (cabs2 z < 1)%Qc.
Proof.
  destruct (Rlt_dec (np.cabs z) 1) as [H|H]; symmetry.
  - by apply bool_decide_eq_true, cabs_lt_1.
  - apply bool_decide_eq_false. by rewrite <- cabs_lt_1.
Qed.

Lemma less_cabs_1 (eigs : list np.complex) :
  np.all (np.less (np.cabs <$> eigs) 1%R)
  = forallb (λ z, bool_decide (cabs2 z < 1)%Qc) eigs.
Proof.
  unfold np.all, np.less. rewrite <- list_fmap_compose.
  induction eigs as [|z eigs IH]; [done|].
  rewrite fmap_cons. cbn [forallb]. rewrite IH. f_equal.
  apply less_cabs_1_at.
Qed.

Lemma all_less_cabs (eigs : list np.complex) :
  np.all (np.less (np.cabs <$> eigs) 1%R) = true
  ↔ ∀ z, z ∈ eigs → (np.cabs z < 1)%R.
Proof.
  rewrite less_cabs_1, forallb_forall. split.
  - intros H z Hz. apply cabs_lt_1.
    apply list_elem_of_In, H in Hz. by apply bool_decide_eq_true in Hz.
  - intros H z Hz. apply bool_decide_eq_true, cabs_lt_1, H.
    by apply list_elem_of_In.
Qed.

Section Stability.

Variable params solver_kwargs : params_t.
Variable ws : Model.symbolic_system.
Variable optimize_minimize : scipy.minimize_t.
Variable linalg_eig : scipy.eig_t.

#[local] Abbreviation steady_state :=
  (Model._get_steady_state params solver_kwargs ws optimize_minimize).
#[local] Abbreviation isstable :=
  (Model._get_isstable params solver_kwargs ws optimize_minimize linalg_eig).

(** C3.  The stability verdict is read off the eigenvalues that [linalg.eig]
    computes for [F_jacobian], the Jacobian of the equation of motion (not
    of the residual), at the state [x] of the steady-state result: it is true
    exactly when every one of them has modulus strictly below 1. *)
Theorem isstable_spec (guess : state) (r : scipy.OptimizeResult)
    (eigs : list np.complex) :
  steady_state guess = Ok r →
  linalg_eig (Model.model_jacobian ws (scipy.x r) params) = Ok eigs →
  ∃ stable : bool,
    isstable guess = Ok stable
    ∧ (stable = true ↔ ∀ z, z ∈ eigs → (np.cabs z < 1)%R).
Proof.
  intros Hss Heig. exists (np.all (np.less (np.cabs <$> eigs) 1%R)).
  split; [|apply all_less_cabs].
  unfold Model._get_isstable, Model._get_eigenvalues, Model.F_jacobian.
  by rewrite Hss, bind_Ok, Heig, bind_Ok.
Qed.

Lemma eigenvalues_of_result (guess : state) (r : scipy.OptimizeResult) :
  steady_state guess = Ok r →
  Model._get_eigenvalues params solver_kwargs ws optimize_minimize linalg_eig
    guess
  = linalg_eig (Model.model_jacobian ws (scipy.x r) params).
Proof.
  intros Hss. unfold Model._get_eigenvalues, Model.F_jacobian. by rewrite Hss.
Qed.

Lemma isstable_of_result (guess : state) (r : scipy.OptimizeResult) :
  steady_state guess = Ok r →
  isstable guess
  = (eigs ← linalg_eig (Model.model_jacobian ws (scipy.x r) params);
     Ok (forallb (λ z, bool_decide (cabs2 z < 1)%Qc) eigs)).
Proof.
  intros Hss. unfold Model._get_isstable.
  rewrite (eigenvalues_of_result _ _ Hss).
  destruct (linalg_eig _) as [eigs|e]; simpl; [|done].
  by rewrite less_cabs_1.
Qed.

(** C4, as the code has it.  The stability classification reads the state
    [x] of the steady-state result and never its [success] flag: for every
    result the minimizer returns, converged or not, the eigenvalues are those
    that [linalg.eig] computes for the Jacobian of the equation of motion at
    [x], and the verdict is returned whenever they are.  The code raises no
    [PreconditionError]. *)
Theorem isstable_ignores_success (guess : state) (r : scipy.OptimizeResult) :
  steady_state guess = Ok r →
  Model._get_eigenvalues params solver_kwargs ws optimize_minimize linalg_eig
    guess
  = linalg_eig (Model.model_jacobian ws (scipy.x r) params)
  ∧ isstable guess
    = (eigs ← linalg_eig (Model.model_jacobian ws (scipy.x r) params);
       Ok (forallb (λ z, bool_decide (cabs2 z < 1)%Qc) eigs)).
Proof.
  intros Hss. split.
  - by apply eigenvalues_of_result.
  - by apply isstable_of_result.
Qed.

End Stability.

(** What the one-shot minimizer makes of a guess. *)
Lemma one_shot_steady_state ps kw ws X value :
  Model._objective ps ws X = Ok value →
  Model._get_steady_state ps kw ws ModelExamples.one_shot_minimize X
  = Ok {| scipy.x := X;
          scipy.success := bool_decide (value = 0%Qc);
          scipy.fun_ := np.Scalar value;
          scipy.message := "";
          scipy.nit := 0 |}.
Proof.
  intros Hobj. unfold Model._get_steady_state, ModelExamples.one_shot_minimize.
  by rewrite Hobj.
Qed.

Lemma objective_apart :
  Model._objective Examples.no_params
    (ModelExamples.relaxation (flt 1.5) Examples.mixed) Examples.apart
  = Ok (flt 1.125).
Proof.
  unfold Model._objective, Model._residual. rewrite bind_Ok.
  f_equal. apply flt_eq. vm_compute. reflexivity.
Qed.

Lemma objective_mixed :
  Model._objective Examples.no_params
    (ModelExamples.relaxation (flt 1.5) Examples.mixed) Examples.mixed
  = Ok 0%Qc.
Proof.
  unfold Model._objective, Model._residual. rewrite bind_Ok.
  f_equal. apply flt_eq. vm_compute. reflexivity.
Qed.

(** C4, as the specification states it, fails: from the guess [apart] the
    one-shot minimizer reports no convergence, and the stability verdict is
    returned all the same. *)
Lemma isstable_of_failed_search :
  (∃ r,
     Model._get_steady_state Examples.no_params Examples.no_params
       (ModelExamples.relaxation (flt 1.5) Examples.mixed)
       ModelExamples.one_shot_minimize Examples.apart = Ok r
     ∧ scipy.success r = false)
  ∧ Model._get_isstable Examples.no_params Examples.no_params
      (ModelExamples.relaxation (flt 1.5) Examples.mixed)
      ModelExamples.one_shot_minimize ModelExamples.eig_triangular
      Examples.apart
    = Ok true.
Proof.
  pose proof (one_shot_steady_state Examples.no_params Examples.no_params
                _ _ _ objective_apart) as Hss.
  split.
  - eexists. split; [exact Hss|]. cbn [scipy.success].
    apply bool_decide_eq_false. intros H. apply (f_equal this) in H.
    vm_compute in H. discriminate.
  - rewrite (isstable_of_result _ _ _ _ _ _ _ Hss).
    vm_compute. reflexivity.
Qed.

(** ** The domain of the residual *)

(** C5, as the code has it.  For every state [X], inside the unit interval or
    not, [_residual(X)] returns the array the symbolic system computes at
    [X] and [_objective(X)] returns half the sum of its squares: there is no
    domain check, no slack and no [DomainError]. *)
Theorem residual_has_no_domain_check (params : params_t)
    (ws : Model.symbolic_system) (X : state) :
  Model._residual params ws X = Ok (Model.residual ws X params)
  ∧ Model._objective params ws X
    = Ok (flt 0.5 * np.sum_all (np.square (Model.residual ws X params)))%Qc.
Proof. split; reflexivity. Qed.

(** C5, as the specification states it, fails: at a state with the components
    2 and -1, outside [0, 1] by more than the slack 0.5, the residual and the
    objective are returned. *)
Lemma residual_outside_domain :
  outside_domain (flt 0.5) ModelExamples.outside
  ∧ Model._residual Examples.no_params
      (ModelExamples.relaxation (flt 1.5) Examples.mixed) ModelExamples.outside
    = Ok (column [flt (-2.25); flt 0.0; flt 0.0; flt 2.25;
                  flt (-0.75); flt 0.0; flt 0.0; flt 0.75])
  ∧ Model._objective Examples.no_params
      (ModelExamples.relaxation (flt 1.5) Examples.mixed) ModelExamples.outside
    = Ok (flt 5.625).
Proof.
  split; [|split].
  - exists 0%fin. right. reflexivity.
  - unfold Model._residual. f_equal. simpl. unfold column. f_equal.
    simpl. repeat f_equal; by apply flt_eq.
  - unfold Model._objective, Model._residual. rewrite bind_Ok.
    f_equal. apply flt_eq. vm_compute. reflexivity.
Qed.

(** ** The equilibrium solvers *)

(** The minimization of [Model]: the steady state is the record that
    [optimize.minimize] returns, handed over as it is; the model raises
    nothing of its own and does not look at the success flag. *)
Lemma steady_state_is_minimize_result (params solver_kwargs : params_t)
    (ws : Model.symbolic_system) (optimize_minimize : scipy.minimize_t)
    (guess : state) :
  Model._get_steady_state params solver_kwargs ws optimize_minimize guess
  = optimize_minimize (Model._objective params ws) guess "SLSQP"
      (Model._jacobian params ws) Model._bound_constraints
      Model._equality_constraints solver_kwargs.
Proof. reflexivity. Qed.

(** The objective never raises, so a minimizer that returns a record whenever
    its callbacks return does so here. *)
Lemma objective_returns (params : params_t) (ws : Model.symbolic_system) X :
  returns (Model._objective params ws X).
Proof. eexists. reflexivity. Qed.

(** No class of [solvers.py] binds the name [_numeric_system]. *)
Lemma numeric_system_unbound :
  Solver.class_lookup Solver.RootFinder_mro "_numeric_system" = None.
Proof. reflexivity. Qed.

Lemma getattr_unbound mro (self : gmap string Solver.pyvalue) name :
  Solver.class_lookup mro name = None → self !! name = None →
  Solver.getattr mro self name = Raise (AttributeError name).
Proof. unfold Solver.getattr. by intros -> ->. Qed.

Lemma getattr_instance mro (self : gmap string Solver.pyvalue) name v :
  Solver.class_lookup mro name = None → self !! name = Some v →
  Solver.getattr mro self name = Ok v.
Proof. unfold Solver.getattr. by intros -> ->. Qed.

Lemma fresh_solver_lookup_guess family guess :
  fresh_solver family guess !! "_initial_guess" = Some (Solver.PyArray guess).
Proof. apply lookup_insert_eq. Qed.

Lemma fresh_solver_lookup_family family guess :
  fresh_solver family guess !! "family" = Some (Solver.PyFamily family).
Proof.
  unfold fresh_solver, Solver.set_initial_guess, Solver.__init__.
  rewrite lookup_insert_ne by done. apply lookup_singleton_eq.
Qed.

Lemma fresh_solver_lookup_other family guess name :
  name ≠ "_initial_guess" → name ≠ "family" →
  fresh_solver family guess !! name = None.
Proof.
  intros H1 H2. unfold fresh_solver, Solver.set_initial_guess, Solver.__init__.
  rewrite lookup_insert_ne by done. by apply lookup_singleton_ne.
Qed.

Lemma fresh_solver_initial_guess family guess :
  Solver.initial_guess Solver.RootFinder_mro (fresh_solver family guess)
  = Ok guess.
Proof.
  unfold Solver.initial_guess.
  by rewrite (getattr_instance Solver.RootFinder_mro _ "_initial_guess" _
                eq_refl (fresh_solver_lookup_guess family guess)).
Qed.

(** On such an instance [residual] raises: the name [_numeric_system] is
    bound neither by the classes nor in the instance. *)
Lemma fresh_solver_residual family guess X :
  Solver.residual Solver.RootFinder_mro (fresh_solver family guess) X
  = Raise (AttributeError "_numeric_system").
Proof.
  unfold Solver.residual.
  rewrite (getattr_unbound _ (fresh_solver family guess) _
             numeric_system_unbound); [done|].
  by apply fresh_solver_lookup_other.
Qed.

(** On such an instance [jacobian] raises too: the property reads the
    mangled attribute [_Solver__numeric_jacobian], which nothing has set. *)
Lemma fresh_solver_jacobian lambdify_jacobian family guess X :
  Solver.jacobian Solver.RootFinder_mro lambdify_jacobian
    (fresh_solver family guess) X
  = Raise (AttributeError "_Solver__numeric_jacobian").
Proof.
  unfold Solver.jacobian, Solver._numeric_jacobian.
  rewrite (getattr_unbound Solver.RootFinder_mro (fresh_solver family guess)
             "_Solver__numeric_jacobian" eq_refl); [done|].
  by apply fresh_solver_lookup_other.
Qed.

(** Were the attribute there, [solve] would return what the root finder
    returns, its success flag included. *)
Lemma patched_solver_solve lambdify_jacobian (optimize_root : scipy.root_t)
    family guess (f : Solver.numeric) method kwargs :
  let self := <[ "_numeric_system" := Solver.PyNumeric f ]>
                (fresh_solver family guess) in
  Solver.solve Solver.RootFinder_mro lambdify_jacobian optimize_root self
    method false kwargs
  = optimize_root
      (λ X, Ok (np.flatten (f (np.first_half X) (np.second_half X)
                              (Solver.params family))))
      guess method None kwargs.
Proof.
  intros self. unfold Solver.solve, Solver.initial_guess.
  rewrite (getattr_instance Solver.RootFinder_mro self "_initial_guess"
             (Solver.PyArray guess))
    by (reflexivity || (unfold self; rewrite lookup_insert_ne by done;
                        apply fresh_solver_lookup_guess)).
  rewrite bind_Ok. reflexivity.
Qed.

(** C6 on [RootFinder]: every root finder that evaluates the residual at the
    initial guess, as those of [scipy.optimize.root] do, never gets to search
    and [solve] raises [AttributeError], for every family, initial guess,
    method and choice of Jacobian: no result object is returned. *)
Theorem root_finder_solve_raises
    (lambdify_jacobian : Solver.Family → Solver.numeric)
    (optimize_root : scipy.root_t) (family : Solver.Family) (guess : state)
    (method : string) (with_jacobian : bool) (kwargs : params_t) :
  (∀ fun_ x0 method jac kwargs e,
     fun_ x0 = Raise e → optimize_root fun_ x0 method jac kwargs = Raise e) →
  Solver.solve Solver.RootFinder_mro lambdify_jacobian optimize_root
    (fresh_solver family guess) method with_jacobian kwargs
  = Raise (AttributeError "_numeric_system").
Proof.
  intros Hroot. unfold Solver.solve.
  rewrite fresh_solver_initial_guess, bind_Ok.
  apply Hroot, fresh_solver_residual.
Qed.

(** ** The properties at concrete inputs *)

(** C1 at the relaxation system, from the state [apart]. *)
Lemma objective_gradient_witness :
  Model._jacobian Examples.no_params
    (ModelExamples.relaxation (flt 1.5) Examples.mixed) Examples.apart
  = Ok (np.Arr1
          (vecmat 8 8
             (vec_to_list
                (vzip_with (λ pi xi, flt 1.5 * (pi - xi))%Qc Examples.mixed
                   Examples.apart))
             (ModelExamples.diagonal (- flt 1.5))))
  ∧ ∀ guess,
      Model._get_steady_state Examples.no_params Examples.no_params
        (ModelExamples.relaxation (flt 1.5) Examples.mixed)
        ModelExamples.one_shot_minimize guess
      = ModelExamples.one_shot_minimize
          (Model._objective Examples.no_params
             (ModelExamples.relaxation (flt 1.5) Examples.mixed))
          guess "SLSQP"
          (Model._jacobian Examples.no_params
             (ModelExamples.relaxation (flt 1.5) Examples.mixed))
          Model._bound_constraints Model._equality_constraints
          Examples.no_params.
Proof.
  apply (objective_gradient_is_residual_times_jacobian Examples.no_params
           Examples.no_params
           (ModelExamples.relaxation (flt 1.5) Examples.mixed)
           ModelExamples.one_shot_minimize Examples.apart).
  - reflexivity.
  - reflexivity.
  - reflexivity.
  - reflexivity.
  - repeat (constructor; [reflexivity|]). constructor.
Defined.

(** The gradient computed there: only the components in which the state
    differs from the target contribute. *)
Example objective_gradient_apart :
  Model._jacobian Examples.no_params
    (ModelExamples.relaxation (flt 1.5) Examples.mixed) Examples.apart
  = Ok (np.Arr1 [flt 1.125; flt 0; flt 0; flt (-1.125);
                 flt (-1.125); flt 0; flt 0; flt 1.125]).
Proof.
  unfold Model._jacobian, Model._residual, Model._residual_jacobian.
  rewrite !bind_Ok. cbn [Model.residual Model.residual_jacobian
                         ModelExamples.relaxation].
  rewrite (sum_axis0_column_times_matrix 8 8);
    [|lia|reflexivity|reflexivity
     |repeat (constructor; [reflexivity|]); constructor].
  do 2 f_equal. unfold vecmat. cbn [seq fmap list_fmap].
  repeat f_equal; apply flt_eq; vm_compute; reflexivity.
Qed.

(** Had the symbolic system returned the residual as a flat array of shape
    (8,), broadcasting would pair entry [j] of the residual with column [j]
    of the Jacobian, and [_jacobian] would return another vector. *)
Example objective_gradient_flat_residual :
  let ws := ModelExamples.relaxation (flt 1.5) Examples.mixed in
  let flat := {|
    Model.residual X ps := np.Arr1 (np.flatten (Model.residual ws X ps));
    Model.residual_jacobian _ _ :=
      np.Arr2 (<[0 := [flt 0; flt 1; flt 0; flt 0; flt 0; flt 0; flt 0; flt 0]]>
                 (ModelExamples.diagonal (flt 0)));
    Model.model_system := Model.model_system ws;
    Model.model_jacobian := Model.model_jacobian ws |} in
  Model._jacobian Examples.no_params flat Examples.apart
  = Ok (np.Arr1 [flt 0; flt 0; flt 0; flt 0; flt 0; flt 0; flt 0; flt 0])
  ∧ vecmat 8 8
      (np.flatten (Model.residual ws Examples.apart Examples.no_params))
      (<[0 := [flt 0; flt 1; flt 0; flt 0; flt 0; flt 0; flt 0; flt 0]]>
         (ModelExamples.diagonal (flt 0)))
    = [flt 0; flt (-0.75); flt 0; flt 0; flt 0; flt 0; flt 0; flt 0].
Proof.
  intros ws flat. split.
  - unfold Model._jacobian, Model._residual, Model._residual_jacobian.
    rewrite !bind_Ok. vm_compute. reflexivity.
  - unfold vecmat. cbn [seq fmap list_fmap].
    repeat f_equal; apply flt_eq; vm_compute; reflexivity.
Qed.

(** C3 at the relaxation system, from its fixed point [mixed], which the
    one-shot minimizer accepts. *)
Lemma isstable_witness :
  ∃ stable : bool,
    Model._get_isstable Examples.no_params Examples.no_params
      (ModelExamples.relaxation (flt 1.5) Examples.mixed)
      ModelExamples.one_shot_minimize ModelExamples.eig_triangular
      Examples.mixed
    = Ok stable
    ∧ (stable = true
       ↔ ∀ z, z ∈ relaxation_eigenvalues → (np.cabs z < 1)%R).
Proof.
  apply (isstable_spec Examples.no_params Examples.no_params
           (ModelExamples.relaxation (flt 1.5) Examples.mixed)
           ModelExamples.one_shot_minimize ModelExamples.eig_triangular
           Examples.mixed
           {| scipy.x := Examples.mixed;
              scipy.success := bool_decide (0%Qc = 0%Qc);
              scipy.fun_ := np.Scalar 0%Qc;
              scipy.message := "";
              scipy.nit := 0 |}).
  - apply one_shot_steady_state, objective_mixed.
  - reflexivity.
Defined.

(** C4 at the relaxation system, from the guess [apart], which the one-shot
    minimizer rejects. *)
Lemma isstable_ignores_success_witness :
  Model._get_eigenvalues Examples.no_params Examples.no_params
    (ModelExamples.relaxation (flt 1.5) Examples.mixed)
    ModelExamples.one_shot_minimize ModelExamples.eig_triangular Examples.apart
  = Ok relaxation_eigenvalues
  ∧ Model._get_isstable Examples.no_params Examples.no_params
      (ModelExamples.relaxation (flt 1.5) Examples.mixed)
      ModelExamples.one_shot_minimize ModelExamples.eig_triangular
      Examples.apart
    = (eigs ← Ok relaxation_eigenvalues;
       Ok (forallb (λ z, bool_decide (cabs2 z < 1)%Qc) eigs)).
Proof.
  apply (isstable_ignores_success Examples.no_params Examples.no_params
           (ModelExamples.relaxation (flt 1.5) Examples.mixed)
           ModelExamples.one_shot_minimize ModelExamples.eig_triangular
           Examples.apart
           {| scipy.x := Examples.apart;
              scipy.success := bool_decide (flt 1.125 = 0%Qc);
              scipy.fun_ := np.Scalar (flt 1.125);
              scipy.message := "";
              scipy.nit := 0 |}).
  apply one_shot_steady_state, objective_apart.
Defined.

(** The verdict follows the Jacobian of the motion, not that of the residual:
    at rate 1.5 the eigenvalues -0.5 of the former are inside the unit circle
    and the eigenvalues -1.5 of the latter are not. *)
Example isstable_motion_not_residual :
  let ws := ModelExamples.relaxation (flt 1.5) Examples.mixed in
  Model._get_isstable Examples.no_params Examples.no_params ws
    ModelExamples.one_shot_minimize ModelExamples.eig_triangular Examples.mixed
  = Ok true
  ∧ (eigs ← ModelExamples.eig_triangular
              (Model.residual_jacobian ws Examples.mixed Examples.no_params);
     Ok (np.all (np.less (np.cabs <$> eigs) 1%R)))
    = Ok false.
Proof.
  intros ws. split.
  - rewrite (isstable_of_result _ _ _ _ _ _ _
               (one_shot_steady_state _ Examples.no_params _ _ _
                  objective_mixed)).
    vm_compute. reflexivity.
  - cbn [Model.residual_jacobian ws ModelExamples.relaxation
         ModelExamples.eig_triangular]. rewrite bind_Ok, less_cabs_1.
    vm_compute. reflexivity.
Qed.

(** The test is strict: an eigenvalue on the unit circle is not stable. *)
Example isstable_strict :
  np.all (np.less (np.cabs <$> [np.Complex (flt 0.6) (flt 0.8)]) 1%R) = false
  ∧ np.all (np.less (np.cabs <$> [np.Complex (flt 0.6) (flt 0.7)]) 1%R) = true.
Proof. rewrite !less_cabs_1. split; vm_compute; reflexivity. Qed.

(** C6 at the one-shot root finder, for a family with no parameters. *)
Lemma root_finder_solve_witness :
  Solver.solve Solver.RootFinder_mro
    (λ _ _ _ _, np.Arr2 (ModelExamples.diagonal (flt 0.5)))
    ModelExamples.one_shot_root
    (fresh_solver {| Solver.params := Examples.no_params |} Examples.apart)
    "hybr" false Examples.no_params
  = Raise (AttributeError "_numeric_system").
Proof.
  apply (root_finder_solve_raises
           (λ _ _ _ _, np.Arr2 (ModelExamples.diagonal (flt 0.5)))
           ModelExamples.one_shot_root
           {| Solver.params := Examples.no_params |} Examples.apart
           "hybr" false Examples.no_params).
  intros fun_ x0 method jac kwargs e Hraise.
  unfold ModelExamples.one_shot_root. rewrite Hraise. reflexivity.
Defined.

(** The relaxation system returns the eight values of the motion. *)
Lemma relaxation_to_col k p X :
  np.to_col (Model.F Examples.no_params (ModelExamples.relaxation k p) X)
  = Ok (vzip_with (λ pi xi, xi + k * (pi - xi))%Qc p X).
Proof.
  unfold Model.F. cbn [Model.model_system ModelExamples.relaxation].
  inv_vec p; intros p0 p1 p2 p3 p4 p5 p6 p7.
  inv_vec X; intros x0 x1 x2 x3 x4 x5 x6 x7. reflexivity.
Qed.

(** C7 at three time steps, under the exchange system and under the
    relaxation system. *)
Lemma simulate_fixed_trajectory_witness :
  (∃ traj,
     Simulator._simulate_fixed_trajectory Examples.no_params
       Examples.exchange_system (λ _, Examples.mixed) Examples.all_GA 3
     = Ok traj
     ∧ is_trajectory (Simulator.F Examples.no_params Examples.exchange_system)
         Examples.all_GA 3 traj)
  ∧ (∀ (params : params_t) (ws : Model.symbolic_system) (f : state → state),
       (∀ X, np.to_col (Model.F params ws X) = Ok (f X)) →
       ∃ traj,
         Model.simulate params ws (λ _, Examples.mixed) Examples.all_GA 3
         = Ok traj
         ∧ is_trajectory f Examples.all_GA 3 traj).
Proof.
  apply (simulate_fixed_trajectory_spec Examples.no_params
           Examples.exchange_system (λ _, Examples.mixed) Examples.all_GA 3).
  lia.
Defined.

(** The three states of that run. *)
Example simulate_fixed_trajectory_exchange :
  Simulator._simulate_fixed_trajectory Examples.no_params
    Examples.exchange_system (λ _, Examples.mixed) Examples.all_GA 3
  = Ok [Examples.all_GA; Examples.all_ga; Examples.all_GA].
Proof. reflexivity. Qed.

(** With no time step there is no trajectory: the first column does not
    exist. *)
Example simulate_fixed_trajectory_zero :
  Simulator._simulate_fixed_trajectory Examples.no_params
    Examples.exchange_system (λ _, Examples.mixed) Examples.all_GA 0
  = Raise IndexError.
Proof. reflexivity. Qed.

Section OnBinary64Scenario.

Import PrimFloat.

(** C8 at the parameters of the isolated sub-populations scenario. *)
Lemma initial_condition_witness :
  Binary64.set_initial_condition Binary64.isolated_params 0.3%float
  = Ok [# 0.3; 0; 0; 1 - 0.3; 1.0 * 5.0 * 0.3; 0; 0; 1.0 * 3.0 * (1 - 0.3)]%float.
Proof.
  apply (proj1 initial_condition_isolated_subpopulations
           Binary64.isolated_params 0.3%float 1.0%float 5.0%float 3.0%float);
    reflexivity.
Defined.

(** The state that the specification gives for the scenario is not the one
    the setter returns: the last entry of the returned state is
    2.0999999999999996, which compares unequal to and below 2.1; the other
    seven entries are the stated ones. *)
Lemma initial_condition_last_entry_rounds :
  ∃ X : Binary64.state,
    Binary64.set_initial_condition Binary64.isolated_params 0.3%float = Ok X
    ∧ X !!! 7%fin = 2.0999999999999996%float
    ∧ (X !!! 7%fin =? Binary64.stated_initial_condition !!! 7%fin)%float = false
    ∧ (X !!! 7%fin <? Binary64.stated_initial_condition !!! 7%fin)%float = true
    ∧ vtake 7%fin X = vtake 7%fin Binary64.stated_initial_condition.
Proof. eexists. by repeat split. Qed.

End OnBinary64Scenario.

(** A parameter that is missing is a [KeyError]. *)
Example initial_condition_missing_parameter :
  Simulator.set_initial_condition {[ "c" := flt 1.0; "PiAA" := flt 5.0 ]}
    (flt 0.3)
  = Raise (KeyError "Piaa").
Proof. reflexivity. Qed.

(** The exchange system permutes the shares of each sex, so it keeps their
    sums. *)
Lemma exchange_keeps_sums X :
  let F := Simulator.F Examples.no_params Examples.exchange_system in
  np.sum (np.first_half (F X)) = np.sum (np.first_half X)
  ∧ np.sum (np.second_half (F X)) = np.sum (np.second_half X).
Proof.
  inv_vec X; intros x0 x1 x2 x3 x4 x5 x6 x7. intros F.
  split; unfold np.sum; cbn; ring.
Qed.

Lemma exchange_keeps_simplex tol X :
  simplex_invariant tol X →
  simplex_invariant tol
    (Simulator.F Examples.no_params Examples.exchange_system X).
Proof.
  unfold simplex_invariant.
  destruct (exchange_keeps_sums X) as [-> ->]. done.
Qed.

(** C9 under the exchange system, from the state that is all [GA], with an
    exact tolerance. *)
Lemma trajectories_keep_simplex_invariant_witness :
  (∀ junk T traj,
     Simulator._simulate_fixed_trajectory Examples.no_params
       Examples.exchange_system junk Examples.all_GA T = Ok traj →
     Forall (simplex_invariant 0%Qc) traj)
  ∧ (∀ fuel rtol traj,
       Simulator._simulate_variable_trajectory Examples.no_params
         Examples.exchange_system fuel Examples.all_GA rtol = Some (Ok traj) →
       Forall (simplex_invariant 0%Qc) traj)
  ∧ (∀ fuel junk rtol T traj,
       Simulator.simulate Examples.no_params Examples.exchange_system fuel junk
         (Some Examples.all_GA) rtol T = Some (Ok traj) →
       Forall (simplex_invariant 0%Qc) traj).
Proof.
  apply (trajectories_keep_simplex_invariant Examples.no_params
           Examples.exchange_system 0%Qc Examples.all_GA).
  - intros X. apply exchange_keeps_simplex.
  - split; vm_compute; discriminate.
Defined.

(** C10 under the mixing system, from the state [apart]: with [rtol = 1] and
    no iteration allowed the initial state alone; with [rtol = 0.75] the
    first iteration returns [apart] and its image [mixed]; with [rtol = 0.1]
    the second iteration returns three states. *)
Lemma simulate_variable_trajectory_first_test_witness :
  Simulator._simulate_variable_trajectory Examples.no_params
    Examples.mixing_system 0 Examples.apart 1%Qc
  = Some (Ok [Examples.apart])
  ∧ Simulator._simulate_variable_trajectory Examples.no_params
      Examples.mixing_system 1 Examples.apart (flt 0.75)
    = Some (Ok [Examples.apart;
                Simulator.F Examples.no_params Examples.mixing_system
                  Examples.apart])
  ∧ Simulator.F Examples.no_params Examples.mixing_system Examples.apart
    = Examples.mixed
  ∧ ∃ rest,
      Simulator._simulate_variable_trajectory Examples.no_params
        Examples.mixing_system 2 Examples.apart (flt 0.1)
      = Some (Ok (Examples.apart
                  :: Simulator.F Examples.no_params Examples.mixing_system
                       Examples.apart
                  :: rest))
      ∧ length rest = 1.
Proof.
  split; [|split; [|split]].
  - apply (proj1 (proj2 (simulate_variable_trajectory_first_test
                           Examples.no_params Examples.mixing_system
                           Examples.apart 1%Qc))).
    vm_compute. discriminate.
  - apply (proj1 (proj2 (proj2 (proj2 (simulate_variable_trajectory_first_test
                           Examples.no_params Examples.mixing_system
                           Examples.apart (flt 0.75)))
                           ltac:(vm_compute; reflexivity)))).
    intros i. repeat (inv_fin i; [by vm_compute|intros i]). inv_fin i.
  - apply vec_eq. intros i.
    repeat (inv_fin i; [by apply flt_eq|intros i]). inv_fin i.
  - apply (proj1 (proj2 (proj2 (proj2 (proj2
             (simulate_variable_trajectory_first_test
                Examples.no_params Examples.mixing_system
                Examples.apart (flt 0.1)))
             ltac:(vm_compute; reflexivity)))) 1).
    + intros i. repeat (inv_fin i; [by vm_compute|intros i]). inv_fin i.
    + intros j Hj Hstep. assert (j = 0) as -> by lia.
      specialize (Hstep 0%fin). vm_compute in Hstep. by apply Hstep.
    + lia.
Defined.


(** * Further properties of the code *)

(** ** Fixed-length simulation: errors, fresh memory, continuation *)

(** One turn of the loop with a step that may raise. *)
Lemma fixed_body_result_step G k (pre : list state) X old (rest : list state) :
  length pre = k →
  fixed_body_result G (S k) ((pre ++ [X]) ++ old :: rest)
  = (Y ← G X; Ok (((pre ++ [X]) ++ [Y]) ++ rest)).
Proof.
  intros Hpre. unfold fixed_body_result, np.getcol, np.setcol.
  replace (S k - 1) with k by lia.
  rewrite lookup_app_l by (rewrite length_app; simpl; lia).
  rewrite lookup_app_r by lia. rewrite Hpre, Nat.sub_diag. simpl.
  destruct (G X) as [Y|e]; simpl; [|done].
  rewrite decide_True by (rewrite !length_app; simpl; lia).
  rewrite insert_app_r_alt by (rewrite length_app; simpl; lia).
  rewrite length_app, Hpre. simpl. replace (S k - (k + 1)) with 0 by lia.
  cbn [insert list_insert]. by rewrite (cons_middle Y), app_assoc.
Qed.

(** The loop with a step that may raise: entered with the states up to [X]
    in place and [m] columns to go, it leaves those states followed by the
    [m] states after [X], or the first exception of the step. *)
Lemma fixed_loop_result G m : ∀ k (pre : list state) X (rest : list state),
  length pre = k → length rest = m →
  for_loop (fixed_body_result G) (seq (S k) m) ((pre ++ [X]) ++ rest)
  = (new ← steps G X m; Ok ((pre ++ [X]) ++ new)).
Proof.
  induction m as [|m IH]; intros k pre X rest Hpre Hrest.
  - destruct rest; [|done]. simpl. by rewrite !app_nil_r.
  - destruct rest as [|old rest]; [done|]. simpl in Hrest.
    cbn [seq for_loop steps]. rewrite fixed_body_result_step by done.
    destruct (G X) as [Y|e]; simpl; [|done].
    rewrite (IH (S k) (pre ++ [X]) Y rest)
      by (rewrite ?length_app; simpl; lia).
    destruct (steps G Y m) as [new|e]; simpl; [|done].
    by rewrite <- !app_assoc.
Qed.

(** A fixed-length simulation with a step that may raise, in full. *)
Lemma fixed_trajectory_result G
    (body : nat → list state → result (list state))
    (junk : nat → state) x0 (T : Z) :
  (∀ t traj, body t traj = fixed_body_result G t traj) →
  (traj ← np.empty junk T;
   traj ← np.setcol traj 0 x0;
   for_loop body (Simulator.range1 T) traj)
  = if decide (T < 1)%Z then Raise (no_steps_error T)
    else (new ← steps G x0 (Z.to_nat T - 1); Ok (x0 :: new)).
Proof.
  intros Hbody. unfold np.empty, no_steps_error.
  destruct (decide (T < 0)%Z) as [Hneg|Hneg].
  { rewrite decide_True by lia. done. }
  destruct (decide (T < 1)%Z) as [H0|H1].
  { assert (T = 0%Z) as -> by lia. done. }
  rewrite bind_Ok. unfold np.setcol.
  destruct (Z.to_nat T) as [|m] eqn:Hn; [lia|].
  rewrite decide_True by (rewrite length_fmap, length_seq; lia).
  rewrite bind_Ok. unfold Simulator.range1. rewrite Hn.
  replace (S m - 1) with m by lia.
  rewrite (for_loop_ext _ _ _ _ Hbody).
  cbn [seq fmap list_fmap insert list_insert].
  exact (fixed_loop_result G m 0 [] x0 (junk <$> seq 1 m) eq_refl
           ltac:(by rewrite length_fmap, length_seq)).
Qed.

Lemma iterates_cons f x0 n :
  iterates f x0 (S n) = x0 :: iterates f (f x0) n.
Proof.
  unfold iterates. cbn [seq fmap list_fmap]. f_equal.
  rewrite <- fmap_S_seq, <- list_fmap_compose.
  apply list_fmap_ext. intros i t _. exact (Nat.iter_succ_r t f x0).
Qed.

Lemma steps_total (f : state → state) X m :
  steps (λ Y, Ok (f Y)) X m = Ok (iterates f (f X) m).
Proof.
  revert X. induction m as [|m IH]; intros X; simpl; [done|].
  by rewrite IH, iterates_cons.
Qed.

Lemma simulator_fixed_result ps ns junk x0 T :
  Simulator._simulate_fixed_trajectory ps ns junk x0 T
  = if decide (T < 1)%Z then Raise (no_steps_error T)
    else (new ← steps (λ Y, Ok (Simulator.F ps ns Y)) x0 (Z.to_nat T - 1);
          Ok (x0 :: new)).
Proof.
  unfold Simulator._simulate_fixed_trajectory.
  by apply fixed_trajectory_result.
Qed.

Lemma model_simulate_result params ws junk x0 T :
  Model.simulate params ws junk x0 T
  = if decide (T < 1)%Z then Raise (no_steps_error T)
    else (new ← steps (λ Y, np.to_col (Model.F params ws Y)) x0
                  (Z.to_nat T - 1);
          Ok (x0 :: new)).
Proof. unfold Model.simulate. by apply fixed_trajectory_result. Qed.

Lemma to_col_wrong_size (v : list Qc) :
  length v ≠ 1 → length v ≠ 8 → np.to_col v = Raise ValueError.
Proof.
  intros H1 H8.
  do 9 (destruct v as [|? v]; [done|]). done.
Qed.

Lemma iterates_app f x0 n m :
  iterates f x0 (n + m) = iterates f x0 n ++ iterates f (Nat.iter n f x0) m.
Proof.
  revert x0. induction n as [|n IH]; intros x0; [done|].
  cbn [Nat.add]. rewrite !iterates_cons, IH. simpl. do 3 f_equal.
  symmetry. exact (Nat.iter_succ_r n f x0).
Qed.

(** X1.  A fixed-length simulation asked for fewer than one state returns no
    trajectory, whatever the state, the system and the memory: a negative [T]
    is a [ValueError] (of [np.empty]) and [T = 0] an [IndexError] (the first
    column does not exist).  This holds of the simulator and of the model. *)
Theorem fixed_length_needs_one_state
    (family_params params : params_t)
    (family_numeric_system : shares → shares → params_t → state)
    (ws : Model.symbolic_system) (junk : nat → state) (x0 : state) (T : Z) :
  (T < 1)%Z →
  Simulator._simulate_fixed_trajectory family_params family_numeric_system
    junk x0 T
  = Raise (if decide (T < 0)%Z then ValueError else IndexError)
  ∧ Model.simulate params ws junk x0 T
    = Raise (if decide (T < 0)%Z then ValueError else IndexError).
Proof.
  intros HT. rewrite simulator_fixed_result, model_simulate_result.
  unfold no_steps_error. by rewrite !(decide_True (P := (T < 1)%Z)) by done.
Qed.

Lemma fixed_length_needs_one_state_witness :
  Simulator._simulate_fixed_trajectory Examples.no_params
    Examples.exchange_system (λ _, Examples.mixed) Examples.all_GA (-2)
  = Raise (if decide (-2 < 0)%Z then ValueError else IndexError)
  ∧ Model.simulate Examples.no_params
      (ModelExamples.relaxation (flt 1.5) Examples.mixed)
      (λ _, Examples.mixed) Examples.all_GA (-2)
    = Raise (if decide (-2 < 0)%Z then ValueError else IndexError).
Proof.
  apply (fixed_length_needs_one_state Examples.no_params Examples.no_params
           Examples.exchange_system
           (ModelExamples.relaxation (flt 1.5) Examples.mixed)
           (λ _, Examples.mixed) Examples.all_GA (-2)).
  lia.
Defined.

(** X2.  What the fresh array of [np.empty] held never shows in the result of
    a fixed-length simulation, of the simulator or of the model, whether it
    returns a trajectory or raises. *)
Theorem fixed_length_ignores_fresh_memory
    (family_params params : params_t)
    (family_numeric_system : shares → shares → params_t → state)
    (ws : Model.symbolic_system) (junk junk' : nat → state) (x0 : state)
    (T : Z) :
  Simulator._simulate_fixed_trajectory family_params family_numeric_system
    junk x0 T
  = Simulator._simulate_fixed_trajectory family_params family_numeric_system
      junk' x0 T
  ∧ Model.simulate params ws junk x0 T = Model.simulate params ws junk' x0 T.
Proof. by rewrite !simulator_fixed_result, !model_simulate_result. Qed.

(** X3.  The model's fixed-length simulation assigns what [F] returns to a
    column of eight entries.  With [T = 1] no step is taken and the
    trajectory is the initial condition alone, whatever the symbolic system
    returns; with [T >= 2] a system whose equation of motion returns neither
    eight values nor one at the initial condition makes the first step fail
    with [ValueError]. *)
Theorem model_simulate_sizes (params : params_t) (ws : Model.symbolic_system)
    (junk : nat → state) (x0 : state) :
  Model.simulate params ws junk x0 1 = Ok [x0]
  ∧ ∀ T : Z,
      (2 ≤ T)%Z →
      length (Model.F params ws x0) ≠ 1 →
      length (Model.F params ws x0) ≠ 8 →
      Model.simulate params ws junk x0 T = Raise ValueError.
Proof.
  split.
  - by rewrite model_simulate_result.
  - intros T HT H1 H8. rewrite model_simulate_result.
    rewrite decide_False by lia.
    destruct (Z.to_nat T - 1) as [|m] eqn:Hm; [lia|]. simpl.
    by rewrite to_col_wrong_size.
Qed.

Lemma model_simulate_sizes_witness :
  Model.simulate Examples.no_params three_valued (λ _, Examples.mixed)
    Examples.apart 5
  = Raise ValueError.
Proof.
  apply (proj2 (model_simulate_sizes Examples.no_params three_valued
                  (λ _, Examples.mixed) Examples.apart) 5%Z).
  - lia.
  - simpl. lia.
  - simpl. lia.
Defined.

(** X4.  A fixed-length simulation can be continued: simulating [T1] states,
    then [T2] states from the last of them, gives, with the repeated state
    dropped, the trajectory of [T1 + T2 - 1] states from the start. *)
Theorem fixed_length_continues
    (family_params : params_t)
    (family_numeric_system : shares → shares → params_t → state)
    (junk junk1 junk2 : nat → state) (x0 : state) (T1 T2 : Z) :
  (1 ≤ T1)%Z → (1 ≤ T2)%Z →
  ∃ traj1 X traj2,
    Simulator._simulate_fixed_trajectory family_params family_numeric_system
      junk1 x0 T1 = Ok traj1
    ∧ list.last traj1 = Some X
    ∧ Simulator._simulate_fixed_trajectory family_params family_numeric_system
        junk2 X T2 = Ok traj2
    ∧ Simulator._simulate_fixed_trajectory family_params family_numeric_system
        junk x0 (T1 + T2 - 1) = Ok (traj1 ++ drop 1 traj2).
Proof.
  intros HT1 HT2.
  set (F := Simulator.F family_params family_numeric_system).
  destruct (Z.to_nat T1) as [|a] eqn:Ha; [lia|].
  destruct (Z.to_nat T2) as [|b] eqn:Hb; [lia|].
  exists (iterates F x0 (S a)), (Nat.iter a F x0),
    (iterates F (Nat.iter a F x0) (S b)).
  rewrite !simulate_fixed_trajectory_iterates by lia.
  rewrite Ha, Hb. split; [done|]. split; [apply last_iterates|].
  split; [done|]. f_equal.
  replace (Z.to_nat (T1 + T2 - 1)) with (S a + b) by lia.
  rewrite iterates_app. f_equal.
  rewrite (iterates_cons F (Nat.iter a F x0)). reflexivity.
Qed.

Lemma fixed_length_continues_witness :
  ∃ traj1 X traj2,
    Simulator._simulate_fixed_trajectory Examples.no_params
      Examples.mixing_system (λ _, Examples.all_GA) Examples.apart 2
    = Ok traj1
    ∧ list.last traj1 = Some X
    ∧ Simulator._simulate_fixed_trajectory Examples.no_params
        Examples.mixing_system (λ _, Examples.all_ga) X 3 = Ok traj2
    ∧ Simulator._simulate_fixed_trajectory Examples.no_params
        Examples.mixing_system (λ _, Examples.mixed) Examples.apart (2 + 3 - 1)
      = Ok (traj1 ++ drop 1 traj2).
Proof.
  apply (fixed_length_continues Examples.no_params Examples.mixing_system
           (λ _, Examples.mixed) (λ _, Examples.all_GA) (λ _, Examples.all_ga)
           Examples.apart 2 3); lia.
Defined.

(** ** Variable-length simulation: edge tolerances and fixed points *)

(** X5.  A trajectory that the variable-length simulation returns is the
    trajectory that the fixed-length simulation returns for as many time
    steps. *)
Theorem variable_length_is_fixed_length
    (family_params : params_t)
    (family_numeric_system : shares → shares → params_t → state)
    (fuel : nat) (junk : nat → state) (x0 : state) (rtol : Qc)
    (traj : list state) :
  Simulator._simulate_variable_trajectory family_params family_numeric_system
    fuel x0 rtol = Some (Ok traj) →
  Simulator._simulate_fixed_trajectory family_params family_numeric_system
    junk x0 (Z.of_nat (length traj)) = Ok traj.
Proof.
  intros Hrun.
  destruct (run_returns _ _ _ _ _ _ Hrun)
    as [[_ [= ->]]|(_ & k & _ & _ & [= ->])].
  - by rewrite simulate_fixed_trajectory_iterates.
  - rewrite length_iterates.
    rewrite simulate_fixed_trajectory_iterates by lia.
    by rewrite Nat2Z.id.
Qed.

Lemma variable_length_is_fixed_length_witness :
  Simulator._simulate_fixed_trajectory Examples.no_params
    Examples.mixing_system (λ _, Examples.all_GA) Examples.apart
    (Z.of_nat (length [Examples.apart; Examples.mixed; Examples.mixed]))
  = Ok [Examples.apart; Examples.mixed; Examples.mixed].
Proof.
  apply (variable_length_is_fixed_length Examples.no_params
           Examples.mixing_system 2 (λ _, Examples.all_GA) Examples.apart
           (flt 0.1)).
  apply simulate_variable_trajectory_mixing.
Defined.



Lemma Qcabs_diag (a : Qc) : Qcabs (a - a) = 0%Qc.
Proof. replace (a - a)%Qc with 0%Qc by ring. by apply flt_eq. Qed.

(** X7.  From a fixed point of the equation of motion, with a tolerance
    [0 <= rtol < 1], the variable-length simulation makes one step and
    returns the fixed point twice. *)
Theorem variable_length_at_fixed_point
    (family_params : params_t)
    (family_numeric_system : shares → shares → params_t → state)
    (x0 : state) (rtol : Qc) (fuel : nat) :
  Simulator.F family_params family_numeric_system x0 = x0 →
  (0 ≤ rtol)%Qc → (rtol < 1)%Qc →
  Simulator._simulate_variable_trajectory family_params family_numeric_system
    (S fuel) x0 rtol = Some (Ok [x0; x0]).
Proof.
  intros Hfix H0 H1. rewrite (run_stops _ _ _ _ (S fuel) 0); [|done|lia|].
  - unfold iterates. simpl. by rewrite Hfix.
  - split; [|intros j Hj; lia].
    intros i. rewrite vlookup_step_delta. simpl. by rewrite Hfix, Qcabs_diag.
Qed.

Lemma variable_length_at_fixed_point_witness :
  Simulator._simulate_variable_trajectory Examples.no_params
    Examples.mixing_system 1 Examples.mixed 0%Qc
  = Some (Ok [Examples.mixed; Examples.mixed]).
Proof.
  apply (variable_length_at_fixed_point Examples.no_params
           Examples.mixing_system Examples.mixed 0%Qc 0).
  - apply vec_eq. intros i.
    inv_fin i; [by apply flt_eq|]. intros i.
    inv_fin i; [by apply flt_eq|]. intros i.
    inv_fin i; [by apply flt_eq|]. intros i.
    inv_fin i; [by apply flt_eq|]. intros i.
    inv_fin i; [by apply flt_eq|]. intros i.
    inv_fin i; [by apply flt_eq|]. intros i.
    inv_fin i; [by apply flt_eq|]. intros i.
    inv_fin i; [by apply flt_eq|]. intros i. inv_fin i.
  - done.
  - done.
Defined.

(** X8.  The arguments of [simulate].  With neither [T] nor [rtol] the call
    is a [ValueError], set initial condition or not.  With one of them and no
    initial condition set it is an [AttributeError].  With [T >= 1] it returns
    the [T] first iterates whatever [rtol] is: the loop on the tolerance is
    not entered, so the call returns also where the variable-length
    simulation would not. *)
Theorem simulate_arguments
    (family_params : params_t)
    (family_numeric_system : shares → shares → params_t → state)
    (fuel : nat) (junk : nat → state) (x0 : state) :
  let simulate :=
    Simulator.simulate family_params family_numeric_system fuel junk in
  (∀ stored, simulate stored None None = Some (Raise ValueError))
  ∧ (∀ rtol T,
       (is_Some rtol ∨ is_Some T) →
       simulate None rtol T
       = Some (Raise (AttributeError "_initial_condition")))
  ∧ (∀ rtol (T : Z),
       (1 ≤ T)%Z →
       simulate (Some x0) rtol (Some T)
       = Some (Ok (iterates
                     (Simulator.F family_params family_numeric_system) x0
                     (Z.to_nat T)))).
Proof.
  intros simulate. split; [done|]. split.
  - intros [rtol|] [T|] [[? [=]]|[? [=]]]; done.
  - intros rtol T HT. unfold simulate, Simulator.simulate. simpl.
    by rewrite simulate_fixed_trajectory_iterates.
Qed.

Lemma simulate_arguments_witness :
  Simulator.simulate Examples.no_params Examples.exchange_system 0
    (λ _, Examples.mixed) (Some Examples.all_GA) (Some (flt 0.5)) (Some 3%Z)
  = Some (Ok [Examples.all_GA; Examples.all_ga; Examples.all_GA]).
Proof.
  apply (proj2 (proj2 (simulate_arguments Examples.no_params
                         Examples.exchange_system 0 (λ _, Examples.mixed)
                         Examples.all_GA)) (Some (flt 0.5)) 3%Z).
  lia.
Defined.
(** ** The initial condition: missing parameters and half-sums *)

(** X9.  The setter of the initial condition reads the parameters [c],
    [PiAA] and [Piaa] and no other: it returns exactly when the three are
    there, and otherwise raises the [KeyError] of the first one missing, in
    that order, whatever the initial share. *)
Theorem initial_condition_parameters (family_params : params_t) (mGA : Qc) :
  (returns (Simulator.set_initial_condition family_params mGA)
   ↔ is_Some (family_params !! "c") ∧ is_Some (family_params !! "PiAA")
     ∧ is_Some (family_params !! "Piaa"))
  ∧ (family_params !! "c" = None →
     Simulator.set_initial_condition family_params mGA = Raise (KeyError "c"))
  ∧ (is_Some (family_params !! "c") → family_params !! "PiAA" = None →
     Simulator.set_initial_condition family_params mGA
     = Raise (KeyError "PiAA"))
  ∧ (is_Some (family_params !! "c") → is_Some (family_params !! "PiAA") →
     family_params !! "Piaa" = None →
     Simulator.set_initial_condition family_params mGA
     = Raise (KeyError "Piaa")).
Proof.
  unfold Simulator.set_initial_condition, returns, getitem.
  destruct (family_params !! "c") as [c|];
    destruct (family_params !! "PiAA") as [PiAA|];
    destruct (family_params !! "Piaa") as [Piaa|]; simpl;
    rewrite ?is_Some_alt; (split; [split|]).
  all: try (by intros [X [=]]).
  all: try (by intros (? & ? & ?)).
  all: try (by intros _; eexists).
  all: (split; [|split]); done.
Qed.

Lemma initial_condition_parameters_witness :
  Simulator.set_initial_condition {[ "c" := flt 1.0; "Piaa" := flt 3.0 ]}
    (flt 0.3)
  = Raise (KeyError "PiAA").
Proof.
  apply (proj1 (proj2 (proj2 (initial_condition_parameters
                                {[ "c" := flt 1.0; "Piaa" := flt 3.0 ]}
                                (flt 0.3))))).
  - by eexists.
  - reflexivity.
Defined.

Lemma Qcabs_le_0 (a : Qc) : (Qcabs a ≤ 0)%Qc ↔ a = 0%Qc.
Proof.
  split.
  - intros H. apply Qcabs_null, Qcle_antisym; [done|apply Qcabs_nonneg].
  - intros ->. replace (Qcabs 0) with 0%Qc by by apply flt_eq. apply Qcle_refl.
Qed.

Lemma Qcminus_0 (a b : Qc) : (a - b)%Qc = 0%Qc ↔ a = b.
Proof.
  split.
  - intros H. replace a with (a - b + b)%Qc by ring. rewrite H. ring.
  - intros ->. ring.
Qed.

(** X10.  In the initial condition the male shares add up to one, and the
    female entries add up to [c * (PiAA * mGA + Piaa * (1 - mGA))]: they are
    numbers of children, and the state lies on the simplex of the female
    shares only when that number is one. *)
Theorem initial_condition_half_sums (family_params : params_t)
    (mGA c PiAA Piaa : Qc) :
  family_params !! "c" = Some c →
  family_params !! "PiAA" = Some PiAA →
  family_params !! "Piaa" = Some Piaa →
  ∃ X,
    Simulator.set_initial_condition family_params mGA = Ok X
    ∧ np.sum (np.first_half X) = 1%Qc
    ∧ np.sum (np.second_half X) = (c * (PiAA * mGA + Piaa * (1 - mGA)))%Qc
    ∧ (simplex_invariant 0%Qc X
       ↔ (c * (PiAA * mGA + Piaa * (1 - mGA)))%Qc = 1%Qc).
Proof.
  intros Hc HAA Haa. eexists. split.
  { unfold Simulator.set_initial_condition.
    rewrite !(getitem_Some _ _ _ Hc), (getitem_Some _ _ _ HAA),
      (getitem_Some _ _ _ Haa). reflexivity. }
  assert (Hm : np.sum (np.first_half
             (np.hstack [# mGA; 0; 0; 1 - mGA]
                [# c * PiAA * mGA; 0; 0; c * Piaa * (1 - mGA)]))%Qc = 1%Qc).
  { unfold np.sum. cbn. ring. }
  assert (Hf : np.sum (np.second_half
             (np.hstack [# mGA; 0; 0; 1 - mGA]
                [# c * PiAA * mGA; 0; 0; c * Piaa * (1 - mGA)]))%Qc
               = (c * (PiAA * mGA + Piaa * (1 - mGA)))%Qc).
  { unfold np.sum. cbn. ring. }
  split; [exact Hm|]. split; [exact Hf|].
  unfold simplex_invariant. rewrite Hm, Hf, !Qcabs_le_0, !Qcminus_0.
  split; [by intros [_ ?]|done].
Qed.

Lemma initial_condition_half_sums_witness :
  ∃ X,
    Simulator.set_initial_condition Examples.isolated_params (flt 0.3) = Ok X
    ∧ np.sum (np.first_half X) = 1%Qc
    ∧ np.sum (np.second_half X)
      = (flt 1.0 * (flt 5.0 * flt 0.3 + flt 3.0 * (1 - flt 0.3)))%Qc
    ∧ (simplex_invariant 0%Qc X
       ↔ (flt 1.0 * (flt 5.0 * flt 0.3 + flt 3.0 * (1 - flt 0.3)))%Qc = 1%Qc).
Proof.
  apply (initial_condition_half_sums Examples.isolated_params (flt 0.3)
           (flt 1.0) (flt 5.0) (flt 3.0)); reflexivity.
Defined.

(** In the scenario of the specification the female entries add up to 3.6. *)
Example initial_condition_off_simplex :
  (flt 1.0 * (flt 5.0 * flt 0.3 + flt 3.0 * (1 - flt 0.3)))%Qc = flt 3.6.
Proof. by apply flt_eq. Qed.

(** ** The least-squares problem of [Model] *)

Lemma flatten_square (a : np.ndarray) :
  np.flatten (np.square a) = (λ x : Qc, x * x)%Qc <$> np.flatten a.
Proof.
  unfold np.flatten. destruct a as [x|v|rows]; cbn [np.square np.rows2].
  - done.
  - cbn [concat]. by rewrite !app_nil_r.
  - induction rows as [|row rows IH]; [done|].
    rewrite fmap_cons. cbn [concat]. by rewrite fmap_app, IH.
Qed.

Lemma Qcmult_nonneg (a b : Qc) : (0 ≤ a)%Qc → (0 ≤ b)%Qc → (0 ≤ a * b)%Qc.
Proof.
  intros Ha Hb. replace 0%Qc with (0 * b)%Qc by ring.
  by apply Qcmult_le_compat_r.
Qed.

Lemma Qc_square_nonneg (x : Qc) : (0 ≤ x * x)%Qc.
Proof.
  replace (x * x)%Qc with (Qcabs x * Qcabs x)%Qc.
  - apply Qcmult_nonneg; apply Qcabs_nonneg.
  - apply (Qcabs_case x (λ y, (y * y)%Qc = (x * x)%Qc)); intros _;
      [done|ring].
Qed.

Lemma Qcplus_nonneg_zero (a b : Qc) :
  (0 ≤ a)%Qc → (0 ≤ b)%Qc → (a + b)%Qc = 0%Qc → a = 0%Qc ∧ b = 0%Qc.
Proof.
  intros Ha Hb Hab.
  assert (Ha0 : a = 0%Qc).
  { apply Qcle_antisym; [|done]. apply Qcle_minus_iff.
    replace (0 + - a)%Qc with b; [done|].
    replace b with (a + b + - a)%Qc by ring. rewrite Hab. ring. }
  split; [done|]. rewrite Ha0 in Hab. rewrite <- Hab. ring.
Qed.

Lemma Qc_sum_cons (x : Qc) (l : list Qc) :
  Qc_sum (x :: l) = (x + Qc_sum l)%Qc.
Proof. reflexivity. Qed.

Lemma Qc_sum_squares_nonneg (l : list Qc) :
  (0 ≤ Qc_sum ((λ x : Qc, x * x)%Qc <$> l))%Qc.
Proof.
  induction l as [|x l IH]; [apply Qcle_refl|].
  rewrite fmap_cons, Qc_sum_cons.
  replace 0%Qc with (0 + 0)%Qc by ring.
  apply Qcplus_le_compat; [apply Qc_square_nonneg|done].
Qed.

Lemma Qc_sum_squares_zero (l : list Qc) :
  Qc_sum ((λ x : Qc, x * x)%Qc <$> l) = 0%Qc ↔ Forall (λ x, x = 0%Qc) l.
Proof.
  induction l as [|x l IH].
  - split; [constructor|done].
  - rewrite fmap_cons, Qc_sum_cons, list.Forall_cons, <- IH. split.
    + intros H.
      apply Qcplus_nonneg_zero in H as [Hx Hl];
        [|apply Qc_square_nonneg|apply Qc_sum_squares_nonneg].
      split; [|done].
      by destruct (Qcmult_integral _ _ Hx).
    + intros [-> ->]. ring.
Qed.

(** X11.  The objective of the steady-state search is never negative, and it
    is zero exactly at the states where every entry of the residual is zero:
    the minimizer looks for a root of the residual. *)
Theorem objective_vanishes_at_roots
    (params : params_t) (ws : Model.symbolic_system) (X : state) :
  ∃ obj,
    Model._objective params ws X = Ok obj
    ∧ (0 ≤ obj)%Qc
    ∧ (obj = 0%Qc
       ↔ Forall (λ x, x = 0%Qc) (np.flatten (Model.residual ws X params))).
Proof.
  eexists. split; [reflexivity|].
  unfold np.sum_all. rewrite flatten_square, foldl_Qcplus.
  set (s := Qc_sum _).
  assert (Hs : (0 ≤ s)%Qc) by apply Qc_sum_squares_nonneg.
  replace (0 + s)%Qc with s by ring. split.
  - apply Qcmult_nonneg; [done|exact Hs].
  - rewrite <- Qc_sum_squares_zero. fold s. split.
    + intros H. by destruct (Qcmult_integral _ _ H).
    + intros ->. ring.
Qed.

(** The product of a flat vector with a matrix under broadcasting: every row
    of the matrix multiplied entry by entry with the vector. *)
Lemma scale_columns (m : nat) (r : list Qc) (J : list (list Qc)) :
  length J = m →
  zip_with (zip_with Qcmult) (replicate m r) J = zip_with Qcmult r <$> J.
Proof.
  intros <-. induction J as [|row J IH]; simpl; [done|]. by rewrite IH.
Qed.

Lemma entry1_zip_with_mult (r row : list Qc) j :
  length row = length r →
  entry1 (zip_with Qcmult r row) j = (entry1 r j * entry1 row j)%Qc.
Proof.
  intros Hlen. unfold entry1. rewrite lookup_zip_with.
  destruct (r !! j) as [x|] eqn:Hx; simpl.
  - destruct (lookup_lt_is_Some_2 row j) as [y Hy].
    { rewrite Hlen. by apply lookup_lt_Some with x. }
    by rewrite Hy.
  - ring.
Qed.

Lemma Qc_sum_scale (x : Qc) (l : list Qc) :
  Qc_sum (Qcmult x <$> l) = (x * Qc_sum l)%Qc.
Proof.
  induction l as [|y l IH]; [simpl; ring|].
  rewrite fmap_cons, !Qc_sum_cons, IH. ring.
Qed.

Lemma Qc_sum_column (J : list (list Qc)) j :
  Qc_sum ((λ row, entry1 row j) <$> J)
  = Qc_sum ((λ i, entry2 J i j) <$> seq 0 (length J)).
Proof.
  f_equal. apply list_eq. intros i. rewrite !list_lookup_fmap.
  destruct (decide (i < length J)) as [Hi|Hi].
  - destruct (lookup_lt_is_Some_2 J i Hi) as [row Hrow].
    rewrite Hrow, lookup_seq_lt by done. simpl. unfold entry2.
    by rewrite Hrow.
  - rewrite lookup_seq_ge by lia. by rewrite (lookup_ge_None_2 J) by lia.
Qed.

(** X12.  When the symbolic system returns the residual as a flat array [r]
    of [n] values and the residual Jacobian as an [m] by [n] matrix [J],
    broadcasting pairs entry [j] of the residual with column [j] of the
    matrix, and [_jacobian] returns the vector whose component [j] is
    [r_j] times the sum of column [j]. *)
Theorem objective_gradient_of_flat_residual
    (params : params_t) (ws : Model.symbolic_system) (X : state)
    (m n : nat) (r : list Qc) (J : list (list Qc)) :
  Model.residual ws X params = np.Arr1 r →
  length r = n →
  Model.residual_jacobian ws X params = np.Arr2 J →
  length J = m →
  0 < m →
  Forall (λ row, length row = n) J →
  Model._jacobian params ws X = Ok (np.Arr1 (flat_gradient m n r J)).
Proof.
  intros Hres Hr Hjac HJ Hm Hrows.
  unfold Model._jacobian, Model._residual, Model._residual_jacobian.
  rewrite Hres, Hjac, !bind_Ok.
  unfold np.multiply, np.broadcast. cbn [np.rows2 np.ndim length np.ncols].
  rewrite HJ, Hr, bdim_1_l, bind_Ok.
  rewrite (ncols_rows n J) by (done || lia).
  rewrite bdim_same, bind_Ok.
  cbn [fmap list_fmap]. rewrite (stretch_length n r) by done.
  change (np.stretch m [r]) with (replicate m r).
  rewrite (list_fmap_ext (np.stretch n) (λ x, x) J), list_fmap_id.
  2:{ intros i row Hrow. apply stretch_length.
      apply (Forall_lookup_1 _ _ _ _ Hrows Hrow). }
  rewrite (stretch_length m J) by done.
  rewrite scale_columns by done. rewrite bind_Ok.
  change (np.of_rows2 (1 `max` 2) ?C) with (np.Arr2 C).
  destruct J as [|row0 J']; [simpl in HJ; lia|].
  apply list.Forall_cons in Hrows as [Hrow0 Hrows'].
  cbn [fmap list_fmap np.sum_axis0]. do 2 f_equal.
  assert (Hcs : Forall (λ row, length row = length (zip_with Qcmult r row0))
                  (zip_with Qcmult r <$> J')).
  { apply Forall_fmap. apply (list.Forall_impl _ _ _ Hrows').
    intros row Hrow. simpl. rewrite !length_zip_with. lia. }
  apply list_eq. intros j. unfold flat_gradient. rewrite list_lookup_fmap.
  destruct (decide (j < n)) as [Hj|Hj].
  - destruct (lookup_lt_is_Some_2 (zip_with Qcmult r row0) j) as [y Hy].
    { rewrite length_zip_with. lia. }
    rewrite (lookup_colsum _ _ j y Hy Hcs).
    rewrite lookup_seq_lt by done. simpl. f_equal.
    rewrite foldl_Qcplus, <- HJ, <- Qc_sum_column. simpl.
    rewrite <- list_fmap_compose.
    rewrite (list_fmap_ext _ (Qcmult (entry1 r j) ∘ (λ row, entry1 row j))
               J').
    2:{ intros i row Hrow. simpl. apply entry1_zip_with_mult.
        rewrite (Forall_lookup_1 _ _ _ _ Hrows' Hrow). done. }
    rewrite list_fmap_compose, Qc_sum_scale.
    assert (Hy' : y = (entry1 r j * entry1 row0 j)%Qc).
    { rewrite <- entry1_zip_with_mult by lia. unfold entry1. by rewrite Hy. }
    rewrite Hy'. symmetry. apply Qcmult_plus_distr_r.
  - rewrite lookup_seq_ge by lia. simpl. apply lookup_ge_None_2.
    rewrite length_colsum by done. rewrite length_zip_with. lia.
Qed.

Lemma objective_gradient_of_flat_residual_witness :
  let flat := {|
    Model.residual _ _ := np.Arr1 [flt 1; flt 2];
    Model.residual_jacobian _ _ :=
      np.Arr2 [[flt 1; flt 0]; [flt 1; flt 1]; [flt 0; flt 3]];
    Model.model_system _ _ := np.Scalar 0%Qc;
    Model.model_jacobian _ _ := np.Scalar 0%Qc |} in
  Model._jacobian Examples.no_params flat Examples.apart
  = Ok (np.Arr1 (flat_gradient 3 2 [flt 1; flt 2]
                   [[flt 1; flt 0]; [flt 1; flt 1]; [flt 0; flt 3]])).
Proof.
  intros flat.
  apply (objective_gradient_of_flat_residual Examples.no_params flat
           Examples.apart 3 2 [flt 1; flt 2]
           [[flt 1; flt 0]; [flt 1; flt 1]; [flt 0; flt 3]]);
    try reflexivity; [lia|].
  repeat (constructor; [reflexivity|]); constructor.
Defined.

(** X13.  A state that meets the bounds and the two equality constraints
    handed to the minimizer has every share strictly between 0 and 1, and
    its male shares and its female shares each add up to exactly one. *)
Theorem constraints_describe_simplices (X : state) :
  within_bounds Model._bound_constraints X →
  satisfies Model._equality_constraints X →
  (∀ i : fin 8, (0 < X !!! i)%Qc ∧ (X !!! i < 1)%Qc)
  ∧ np.sum (np.first_half X) = 1%Qc
  ∧ np.sum (np.second_half X) = 1%Qc
  ∧ simplex_invariant 0%Qc X.
Proof.
  intros Hbounds Heq.
  assert (Hm : np.sum (np.first_half X) = 1%Qc).
  { apply Forall_inv in Heq. simpl in Heq. symmetry. by apply Qcminus_0. }
  assert (Hf : np.sum (np.second_half X) = 1%Qc).
  { apply Forall_inv_tail, Forall_inv in Heq. simpl in Heq. symmetry.
    by apply Qcminus_0. }
  split; [|split; [done|split; [done|]]].
  - intros i. unfold within_bounds in Hbounds.
    destruct (Forall2_lookup_l _ _ _ (fin_to_nat i) (X !!! i) Hbounds)
      as (b & Hb & Hlo & Hhi).
    { apply vlookup_lookup. done. }
    unfold Model._bound_constraints in Hb.
    rewrite list_lookup_fmap in Hb.
    destruct (seq 0 8 !! fin_to_nat i); simplify_eq/=.
    split.
    + eapply Qclt_le_trans; [|exact Hlo]. done.
    + eapply Qcle_lt_trans; [exact Hhi|]. done.
  - unfold simplex_invariant. rewrite Hm, Hf, Qcabs_diag. split; apply Qcle_refl.
Qed.

Lemma constraints_describe_simplices_witness :
  let X : state :=
    [# flt 0.25; flt 0.25; flt 0.25; flt 0.25;
       flt 0.5; flt 0.125; flt 0.125; flt 0.25] in
  (∀ i : fin 8, (0 < X !!! i)%Qc ∧ (X !!! i < 1)%Qc)
  ∧ np.sum (np.first_half X) = 1%Qc
  ∧ np.sum (np.second_half X) = 1%Qc
  ∧ simplex_invariant 0%Qc X.
Proof.
  intros X. apply (constraints_describe_simplices X).
  - repeat (constructor; [split; by vm_compute|]). constructor.
  - repeat (constructor; [by apply flt_eq|]). constructor.
Defined.

(** ** The tolerance of the variable-length simulation *)

Lemma iterates_prefix f x0 n m :
  n ≤ m → iterates f x0 n `prefix_of` iterates f x0 m.
Proof.
  intros H. replace m with (n + (m - n)) by lia. rewrite iterates_app.
  by eexists.
Qed.

(** X14.  A looser tolerance stops the variable-length simulation no later:
    when the simulation returns a trajectory for [rtol], it returns for every
    [rtol' >= rtol] too, within the same number of iterations, and what it
    returns is an initial part of that trajectory. *)
Theorem variable_length_looser_tolerance
    (family_params : params_t)
    (family_numeric_system : shares → shares → params_t → state)
    (fuel : nat) (x0 : state) (rtol rtol' : Qc) (traj : list state) :
  (rtol ≤ rtol')%Qc →
  Simulator._simulate_variable_trajectory family_params family_numeric_system
    fuel x0 rtol = Some (Ok traj) →
  ∃ traj',
    Simulator._simulate_variable_trajectory family_params
      family_numeric_system fuel x0 rtol' = Some (Ok traj')
    ∧ traj' `prefix_of` traj.
Proof.
  intros Hle Hrun.
  destruct (Qclt_le_dec rtol' 1) as [Hlt'|Hge'].
  2:{ exists [x0]. split; [by apply run_tolerant|].
      destruct (run_returns _ _ _ _ _ _ Hrun)
        as [[_ [= ->]]|(_ & k & _ & _ & [= ->])]; [done|].
      destruct (iterates_starts
                  (Simulator.F family_params family_numeric_system) x0 k)
        as [rest ->].
      by exists (Simulator.F family_params family_numeric_system x0 :: rest). }
  destruct (run_returns _ _ _ _ _ _ Hrun)
    as [[Hge _]|(_ & k & Hk & [Hclose Hfirst] & [= ->])].
  { exfalso. apply (Qclt_not_le _ _ Hlt'). by apply Qcle_trans with rtol. }
  assert (Hclose' : close_at family_params family_numeric_system rtol' x0 k).
  { intros i. apply Qcle_trans with rtol; [apply Hclose|done]. }
  destruct (first_close_below family_params family_numeric_system rtol' x0
              (S k)) as [Hno|(k' & Hk' & Hfirst')].
  { exfalso. apply (Hno k); [lia|done]. }
  eexists. split.
  - apply (run_stops _ _ _ _ fuel k'); [done|lia|done].
  - apply iterates_prefix. lia.
Qed.

Lemma variable_length_looser_tolerance_witness :
  ∃ traj',
    Simulator._simulate_variable_trajectory Examples.no_params
      Examples.mixing_system 2 Examples.apart (flt 0.75) = Some (Ok traj')
    ∧ traj' `prefix_of` [Examples.apart; Examples.mixed; Examples.mixed].
Proof.
  apply (variable_length_looser_tolerance Examples.no_params
           Examples.mixing_system 2 Examples.apart (flt 0.1) (flt 0.75)).
  - done.
  - apply simulate_variable_trajectory_mixing.
Defined.

(** ** The solvers: what a caller can set, and what it can then evaluate *)

Lemma set_initial_guess_lookup_ne (self : gmap string Solver.pyvalue)
    (guesses : list state) (name : string) :
  name ≠ "_initial_guess" →
  foldl Solver.set_initial_guess self guesses !! name = self !! name.
Proof.
  intros Hname. revert self.
  induction guesses as [|g guesses IH]; intros self; simpl; [done|].
  rewrite IH. unfold Solver.set_initial_guess.
  by rewrite lookup_insert_ne.
Qed.

Lemma built_lookup_other family guesses name :
  name ≠ "_initial_guess" → name ≠ "family" →
  built family guesses !! name = None.
Proof.
  intros H1 H2. unfold built. rewrite set_initial_guess_lookup_ne by done.
  by apply lookup_singleton_ne.
Qed.

Ltac elem_of_list :=
  repeat first [apply list_elem_of_here | apply list_elem_of_further].

Lemma solver_mro_unbound mro name :
  mro ∈ [Solver.RootFinder_mro; LeastSquaresSolver_mro] →
  name ∈ ["_initial_guess"; "_numeric_system"; "_Solver__numeric_jacobian";
          "_Solver__numeric_residual"; "family"] →
  Solver.class_lookup mro name = None.
Proof.
  intros Hmro Hname.
  repeat (apply elem_of_cons in Hmro as [->|Hmro]);
    [ | |by apply elem_of_nil in Hmro];
    repeat (apply elem_of_cons in Hname as [->|Hname]);
    try reflexivity; by apply elem_of_nil in Hname.
Qed.

(** X15.  For a [RootFinder] and for a [LeastSquaresSolver] alike, reading
    [initial_guess] gives the value assigned last, whatever was assigned
    before, and raises [AttributeError] when nothing was assigned since the
    constructor. *)
Theorem initial_guess_round_trip
    (mro : list (list (string * Solver.attr_kind))) (family : Solver.Family)
    (guesses : list state) (guess : state) :
  mro ∈ [Solver.RootFinder_mro; LeastSquaresSolver_mro] →
  Solver.initial_guess mro
    (Solver.set_initial_guess (built family guesses) guess) = Ok guess
  ∧ Solver.initial_guess mro (Solver.__init__ family)
    = Raise (AttributeError "_initial_guess").
Proof.
  intros Hmro.
  assert (Hclass : Solver.class_lookup mro "_initial_guess" = None).
  { apply solver_mro_unbound; [done|]. elem_of_list. }
  unfold Solver.initial_guess. split.
  - rewrite (getattr_instance mro _ "_initial_guess" (Solver.PyArray guess)
               Hclass); [done|].
    apply lookup_insert_eq.
  - by rewrite (getattr_unbound mro (Solver.__init__ family)
                  "_initial_guess" Hclass).
Qed.

Lemma initial_guess_round_trip_witness :
  Solver.initial_guess LeastSquaresSolver_mro
    (Solver.set_initial_guess
       (built {| Solver.params := Examples.isolated_params |}
          [Examples.apart])
       Examples.mixed)
  = Ok Examples.mixed
  ∧ Solver.initial_guess LeastSquaresSolver_mro
      (Solver.__init__ {| Solver.params := Examples.isolated_params |})
    = Raise (AttributeError "_initial_guess").
Proof.
  apply (initial_guess_round_trip LeastSquaresSolver_mro
           {| Solver.params := Examples.isolated_params |}
           [Examples.apart] Examples.mixed).
  elem_of_list.
Defined.

(** X16.  No instance that the constructor and the setter of
    [initial_guess] can build evaluates a numeric function: [jacobian] and
    the properties [_numeric_jacobian] and [_numeric_residual] read a mangled
    attribute that nothing initialises, and [residual] reads
    [_numeric_system], which nothing defines.  Each raises [AttributeError],
    for a [RootFinder] and for a [LeastSquaresSolver], before [sympy] is ever
    called. *)
Theorem solver_numeric_functions_unreachable
    (mro : list (list (string * Solver.attr_kind)))
    (lambdify_jacobian lambdify_residual : Solver.Family → Solver.numeric)
    (family : Solver.Family) (guesses : list state) (X : state) :
  mro ∈ [Solver.RootFinder_mro; LeastSquaresSolver_mro] →
  Solver._numeric_jacobian mro lambdify_jacobian (built family guesses)
  = Raise (AttributeError "_Solver__numeric_jacobian")
  ∧ Solver._numeric_residual mro lambdify_residual (built family guesses)
    = Raise (AttributeError "_Solver__numeric_residual")
  ∧ Solver.jacobian mro lambdify_jacobian (built family guesses) X
    = Raise (AttributeError "_Solver__numeric_jacobian")
  ∧ Solver.residual mro (built family guesses) X
    = Raise (AttributeError "_numeric_system").
Proof.
  intros Hmro.
  assert (Hget : ∀ name,
    name ∈ ["_numeric_system"; "_Solver__numeric_jacobian";
            "_Solver__numeric_residual"] →
    Solver.getattr mro (built family guesses) name
    = Raise (AttributeError name)).
  { intros name Hname.
    repeat (apply elem_of_cons in Hname as [->|Hname]);
      [..|by apply elem_of_nil in Hname];
      (apply getattr_unbound;
         [apply solver_mro_unbound; [done|elem_of_list]
         |by apply built_lookup_other]). }
  unfold Solver.jacobian, Solver._numeric_jacobian, Solver._numeric_residual,
    Solver.residual.
  rewrite (Hget "_numeric_system"), (Hget "_Solver__numeric_jacobian"),
    (Hget "_Solver__numeric_residual") by elem_of_list.
  done.
Qed.

Lemma solver_numeric_functions_unreachable_witness :
  let family := {| Solver.params := Examples.isolated_params |} in
  let numeric : Solver.Family → Solver.numeric :=
    λ _ _ _ _, np.Scalar 0%Qc in
  Solver._numeric_jacobian Solver.RootFinder_mro numeric
    (built family [Examples.apart; Examples.mixed])
  = Raise (AttributeError "_Solver__numeric_jacobian")
  ∧ Solver._numeric_residual Solver.RootFinder_mro numeric
      (built family [Examples.apart; Examples.mixed])
    = Raise (AttributeError "_Solver__numeric_residual")
  ∧ Solver.jacobian Solver.RootFinder_mro numeric
      (built family [Examples.apart; Examples.mixed]) Examples.mixed
    = Raise (AttributeError "_Solver__numeric_jacobian")
  ∧ Solver.residual Solver.RootFinder_mro
      (built family [Examples.apart; Examples.mixed]) Examples.mixed
    = Raise (AttributeError "_numeric_system").
Proof.
  intros family numeric.
  apply (solver_numeric_functions_unreachable Solver.RootFinder_mro numeric
           numeric family [Examples.apart; Examples.mixed] Examples.mixed).
  elem_of_list.
Defined.

(** X17.  [RootFinder.solve] called before any initial guess was assigned
    raises [AttributeError] for [_initial_guess], whatever the method, the
    choice of Jacobian and the root finder: the search is never started. *)
Theorem solve_needs_initial_guess
    (lambdify_jacobian : Solver.Family → Solver.numeric)
    (optimize_root : scipy.root_t) (family : Solver.Family)
    (method : string) (with_jacobian : bool) (kwargs : params_t) :
  Solver.solve Solver.RootFinder_mro lambdify_jacobian optimize_root
    (Solver.__init__ family) method with_jacobian kwargs
  = Raise (AttributeError "_initial_guess").
Proof.
  unfold Solver.solve, Solver.initial_guess.
  by rewrite (getattr_unbound Solver.RootFinder_mro (Solver.__init__ family)
                "_initial_guess" eq_refl eq_refl).
Qed.

(** ** What is drawn *)




Lemma plot_trajectories_known ax dataframe kind :
  kind ∈ kinds →
  ∃ lines,
    Frame._plot_trajectories ax dataframe kind = Ok (ax ++ lines)
    ∧ length lines = length (Frame.labels kind)
    ∧ Forall (λ line, length line = length dataframe) lines.
Proof.
  intros Hkind.
  assert (Hlen : ∀ f : shares → Qc, length (f <$> dataframe) = length dataframe)
    by (intros f; apply length_fmap).
  repeat (apply elem_of_cons in Hkind as [->|Hkind]);
    [..|by apply elem_of_nil in Hkind];
    (eexists; split; [reflexivity|]; split; [reflexivity|]);
    repeat (constructor; [apply Hlen|]); constructor.
Qed.

Lemma plot_trajectories_unknown ax dataframe kind :
  kind ∉ kinds → Frame._plot_trajectories ax dataframe kind = Raise ValueError.
Proof.
  intros Hkind. unfold Frame._plot_trajectories.
  repeat case_decide; subst; try done; exfalso; apply Hkind; elem_of_list.
Qed.

(** X19.  [_plot_trajectories] draws for the kinds [genotypes],
    [alpha_allele] and [gamma_allele] only, and raises [ValueError] for any
    other kind.  For a known kind it adds to the axis as many lines as the
    legend of that kind has labels, four or two, each with one point for
    every row of the frame. *)
Theorem plot_trajectories_kinds (ax : Plot.axis) (dataframe : list shares)
    (kind : string) :
  (kind ∈ kinds →
   ∃ lines,
     Frame._plot_trajectories ax dataframe kind = Ok (ax ++ lines)
     ∧ length lines = length (Frame.labels kind)
     ∧ Forall (λ line, length line = length dataframe) lines)
  ∧ (kind ∉ kinds →
     Frame._plot_trajectories ax dataframe kind = Raise ValueError).
Proof.
  split; [apply plot_trajectories_known|apply plot_trajectories_unknown].
Qed.

(** X20.  With a number of time steps [T >= 1] and parameters that hold
    [c], [PiAA] and [Piaa], the plot of a simulation from isolated
    subpopulations draws, for every pair of known kinds, as many lines on
    each axis as the kind has labels, every line with [T] points, and then
    calls [legend] on the male axis and on the female axis, in that order,
    each with the axis itself as handles and with the labels of its kind.  Its
    outcome is that of the two calls: an error of the first or of the second
    is the error of the function, and the figure is returned when both
    return.  With an unknown kind for either axis it raises [ValueError]
    after the simulation has run, whatever [legend] does. *)
Theorem frame_plot_figure
    (legend : Frame.legend_t)
    (family_numeric_system : shares → shares → params_t → state)
    (fuel : nat) (junk : nat → state) (mGA0 : Qc) (T : Z) (rtol : option Qc)
    (males females : string) (params : params_t) :
  (1 ≤ T)%Z →
  returns (Simulator.set_initial_condition params mGA0) →
  (males ∈ kinds → females ∈ kinds →
   ∃ male_lines female_lines,
     length male_lines = length (Frame.labels males)
     ∧ length female_lines = length (Frame.labels females)
     ∧ Forall (λ line, length line = Z.to_nat T) (male_lines ++ female_lines)
     ∧ Frame.plot_isolated_subpopulations_simulation legend
         family_numeric_system fuel junk mGA0 (Some T) rtol males females
         params
       = Some (match legend male_lines male_lines (Frame.labels males) with
               | Raise e => Raise e
               | Ok _ =>
                   match legend female_lines female_lines
                           (Frame.labels females) with
                   | Raise e => Raise e
                   | Ok _ =>
                       Ok {| Frame.male_lines := male_lines;
                             Frame.male_labels := Frame.labels males;
                             Frame.female_lines := female_lines;
                             Frame.female_labels := Frame.labels females |}
                   end
               end))
  ∧ (males ∉ kinds ∨ females ∉ kinds →
     Frame.plot_isolated_subpopulations_simulation legend
       family_numeric_system fuel junk mGA0 (Some T) rtol males females params
     = Some (Raise ValueError)).
Proof.
  intros HT [x0 Hx0].
  unfold Frame.plot_isolated_subpopulations_simulation, Frame.simulate.
  rewrite Hx0, simulate_prefers_T, simulate_fixed_trajectory_iterates by done.
  set (traj := iterates _ x0 (Z.to_nat T)).
  assert (Hlen : length traj = Z.to_nat T) by apply length_iterates.
  cbn [Frame._trajectory_to_dataframe Frame.Male_Adult_Genotypes
       Frame.Female_Children_Genotypes].
  split.
  - intros Hm Hf.
    destruct (plot_trajectories_known [] (np.first_half <$> traj) males Hm)
      as (ml & -> & Hml & Hmlen).
    destruct (plot_trajectories_known [] (np.second_half <$> traj) females Hf)
      as (fl & -> & Hfl & Hflen).
    rewrite !bind_Ok. exists ml, fl.
    rewrite length_fmap, Hlen in Hmlen, Hflen.
    split; [done|]. split; [done|]. split; [by apply Forall_app|].
    reflexivity.
  - intros [Hm|Hf].
    + by rewrite (plot_trajectories_unknown _ _ _ Hm).
    + rewrite (plot_trajectories_unknown _ _ females Hf).
      destruct (decide (males ∈ kinds)) as [Hm|Hm].
      * destruct (plot_trajectories_known [] (np.first_half <$> traj) males Hm)
          as (ml & -> & _). done.
      * by rewrite (plot_trajectories_unknown _ _ _ Hm).
Qed.

(** X20 where [legend] refuses an axis given as handles, as matplotlib does
    with [TypeError]: the lines are drawn and the function raises that
    error. *)
Lemma frame_plot_figure_witness :
  let legend : Frame.legend_t := λ _ _ _, Raise TypeError in
  (("alpha_allele" : string) ∈ kinds → ("genotypes" : string) ∈ kinds →
   ∃ male_lines female_lines : Plot.axis,
     length male_lines = 2
     ∧ length female_lines = 4
     ∧ Forall (λ line, length line = 3) (male_lines ++ female_lines)
     ∧ Frame.plot_isolated_subpopulations_simulation legend
         Examples.mixing_system 0 (λ _, Examples.all_GA) (flt 0.3) (Some 3%Z)
         None "alpha_allele" "genotypes" Examples.isolated_params
       = Some (Raise TypeError))
  ∧ (("alpha_allele" : string) ∉ kinds ∨ ("genotypes" : string) ∉ kinds →
     Frame.plot_isolated_subpopulations_simulation legend
       Examples.mixing_system 0 (λ _, Examples.all_GA) (flt 0.3) (Some 3%Z)
       None "alpha_allele" "genotypes" Examples.isolated_params
     = Some (Raise ValueError)).
Proof.
  intros legend.
  apply (frame_plot_figure legend Examples.mixing_system 0
           (λ _, Examples.all_GA) (flt 0.3) 3 None "alpha_allele" "genotypes"
           Examples.isolated_params).
  - lia.
  - eexists. reflexivity.
Defined.

Lemma tmp_params_lookup d_A d_a e_G e_g c PiaA PiAA Piaa PiAa :
  let ps := Plot.tmp_params d_A d_a e_G e_g c PiaA PiAA Piaa PiAa in
  ps !! "c" = Some c ∧ ps !! "PiAA" = Some PiAA ∧ ps !! "Piaa" = Some Piaa.
Proof.
  intros ps. unfold ps, Plot.tmp_params.
  repeat split; by simplify_map_eq.
Qed.

Lemma tmp_params_initial_condition d_A d_a e_G e_g c PiaA PiAA Piaa PiAa mGA0 :
  Simulator.set_initial_condition
    (Plot.tmp_params d_A d_a e_G e_g c PiaA PiAA Piaa PiAa) mGA0
  = Ok [# mGA0; 0; 0; 1 - mGA0;
          c * PiAA * mGA0; 0; 0; c * Piaa * (1 - mGA0)]%Qc.
Proof.
  destruct (tmp_params_lookup d_A d_a e_G e_g c PiaA PiAA Piaa PiAa)
    as (Hc & HAA & Haa).
  unfold Simulator.set_initial_condition.
  by rewrite !(getitem_Some _ _ _ Hc), (getitem_Some _ _ _ HAA),
    (getitem_Some _ _ _ Haa).
Qed.

Lemma length_row i traj : length (Plot.row i traj) = length traj.
Proof. unfold Plot.row. by rewrite length_fmap. Qed.

(** X21.  The plot of [package/simulators.py] builds the parameters from its
    keyword arguments, so the initial condition never lacks one.  With a
    number of time steps [T >= 1] it returns two axes of four lines each,
    every line with [T] points: the male lines start at [mGA0], 0, 0 and
    [1 - mGA0], the female lines at [c * PiAA * mGA0], 0, 0 and
    [c * Piaa * (1 - mGA0)]. *)
Theorem package_plot_lines
    (family_numeric_system : shares → shares → params_t → state)
    (fuel : nat) (junk : nat → state) (mGA0 : Qc) (T : Z) (rtol : option Qc)
    (d_A d_a e_G e_g c PiaA PiAA Piaa PiAa : Qc) :
  (1 ≤ T)%Z →
  ∃ males females,
    Plot.plot_isolated_subpopulations_simulation family_numeric_system fuel
      junk mGA0 (Some T) rtol
      (Plot.tmp_params d_A d_a e_G e_g c PiaA PiAA Piaa PiAa)
    = Some (Ok (males, females))
    ∧ length males = 4 ∧ length females = 4
    ∧ Forall (λ line, length line = Z.to_nat T) (males ++ females)
    ∧ head <$> males = Some <$> [mGA0; 0; 0; 1 - mGA0]%Qc
    ∧ head <$> females
      = Some <$> [c * PiAA * mGA0; 0; 0; c * Piaa * (1 - mGA0)]%Qc.
Proof.
  intros HT. unfold Plot.plot_isolated_subpopulations_simulation.
  rewrite tmp_params_initial_condition, simulate_prefers_T,
    simulate_fixed_trajectory_iterates by done.
  set (x0 := [# mGA0; _; _; _; _; _; _; _]%Qc).
  set (F := Simulator.F _ _).
  destruct (Z.to_nat T) as [|n] eqn:Hn; [lia|].
  do 2 eexists. split; [reflexivity|].
  split; [done|]. split; [done|]. split.
  - repeat (constructor; [by rewrite length_row, length_iterates|]).
    constructor.
  - rewrite iterates_cons. done.
Qed.

Lemma package_plot_lines_witness :
  ∃ males females,
    Plot.plot_isolated_subpopulations_simulation Examples.mixing_system 0
      (λ _, Examples.all_GA) (flt 0.3) (Some 3%Z) None Plot.default_params
    = Some (Ok (males, females))
    ∧ length males = 4 ∧ length females = 4
    ∧ Forall (λ line, length line = Z.to_nat 3) (males ++ females)
    ∧ head <$> males = Some <$> [flt 0.3; 0; 0; 1 - flt 0.3]%Qc
    ∧ head <$> females
      = Some <$> [flt 1.0 * flt 5.0 * flt 0.3; 0; 0;
                  flt 1.0 * flt 3.0 * (1 - flt 0.3)]%Qc.
Proof.
  apply (package_plot_lines Examples.mixing_system 0 (λ _, Examples.all_GA)
           (flt 0.3) 3 None (flt 0.5) (flt 0.5) (flt 0.5) (flt 0.5)
           (flt 1.0) (flt 7.0) (flt 5.0) (flt 3.0) (flt 2.0)).
  lia.
Defined.

(** X22.  Whatever its arguments, the plot of [package/simulators.py] never
    raises [KeyError]; when neither [T] nor [rtol] is given it raises
    [ValueError], and the only other errors are those of a number of time
    steps below one. *)
Theorem package_plot_errors
    (family_numeric_system : shares → shares → params_t → state)
    (fuel : nat) (junk : nat → state) (mGA0 : Qc) (T : option Z)
    (rtol : option Qc) (d_A d_a e_G e_g c PiaA PiAA Piaa PiAa : Qc) (e : exn) :
  let plot T rtol :=
    Plot.plot_isolated_subpopulations_simulation family_numeric_system fuel
      junk mGA0 T rtol
      (Plot.tmp_params d_A d_a e_G e_g c PiaA PiAA Piaa PiAa) in
  plot None None = Some (Raise ValueError)
  ∧ (plot T rtol = Some (Raise e) →
     (T = None ∧ rtol = None ∧ e = ValueError)
     ∨ (∃ T', T = Some T' ∧ (T' < 1)%Z ∧ e = no_steps_error T'))
  ∧ (∀ key, plot T rtol ≠ Some (Raise (KeyError key))).
Proof.
  intros plot. unfold plot, Plot.plot_isolated_subpopulations_simulation.
  rewrite tmp_params_initial_condition.
  set (x0 := [# mGA0; _; _; _; _; _; _; _]%Qc). split; [done|].
  assert (Herr : ∀ e',
    match Simulator.simulate
            (Plot.tmp_params d_A d_a e_G e_g c PiaA PiAA Piaa PiAa)
            family_numeric_system fuel junk (Some x0) rtol T with
    | Some (Ok tmp_traj) =>
        Some (Ok ([Plot.row 0%fin tmp_traj; Plot.row 1%fin tmp_traj;
                   Plot.row 2%fin tmp_traj; Plot.row 3%fin tmp_traj],
                  [Plot.row 4%fin tmp_traj; Plot.row 5%fin tmp_traj;
                   Plot.row 6%fin tmp_traj; Plot.row 7%fin tmp_traj]))
    | Some (Raise e) => Some (Raise e)
    | None => None
    end = Some (Raise e') →
    (T = None ∧ rtol = None ∧ e' = ValueError)
    ∨ (∃ T', T = Some T' ∧ (T' < 1)%Z ∧ e' = no_steps_error T')).
  { intros e'. destruct T as [T'|].
    - rewrite simulate_prefers_T, simulator_fixed_result.
      case_decide as HT.
      + intros [= <-]. right. by exists T'.
      + rewrite steps_total, bind_Ok. done.
    - destruct rtol as [r|]; [|intros [= <-]; by left].
      cbn [Simulator.simulate Simulator.initial_condition].
      destruct (Simulator._simulate_variable_trajectory _ _ fuel x0 r)
        as [res|] eqn:Hrun; [|done].
      destruct (run_returns _ _ _ _ _ _ Hrun)
        as [[_ ->]|(_ & k & _ & _ & ->)]; done. }
  split; [apply Herr|].
  intros key Hkey.
  destruct (Herr _ Hkey) as [(_ & _ & [=])|(T' & _ & _ & He)].
  unfold no_steps_error in He. by case_decide.
Qed.
